(** * Resume optimizer agent: the procedural tools of [my_agent/agent.py]

    The repository configures a pipeline of language-model prompts.  Its only
    procedural code is three tool functions:

    - [resume_gap_asker_tool], the confirmation-gated input collector;
    - [get_latex_template_tool], which reads the LaTeX template from disk;
    - [save_generated_resume_latex], which stores the generated LaTeX as a
      versioned artifact.

    This file embeds the three functions in Rocq, statement by statement, over
    a small model of the Python values they handle and of the framework
    objects they call, and proves what they do. *)

From Stdlib Require Import ZArith NArith String Ascii List DecimalString.
From stdpp Require Import base option list gmap strings.

Set Warnings "-register-all".

(** ** Python values, exceptions and effects *)

Module Py.

(** A Python [str] is a sequence of Unicode code points; a [bytes] object is a
    sequence of numbers below 256.  Both are lists of [N].  Only code points
    up to 0x10FFFF occur in an actual [str]. *)
Abbreviation pystr := (list N).
Abbreviation pybytes := (list N).

(** The [str] denoted by a literal of ASCII characters. *)
Definition py (s : string) : pystr := N_of_ascii <$> list_ascii_of_string s.

(** The line feed, written backslash-n in the source. *)
Definition LF : pystr := [10%N].

(** The values that session state, confirmation payloads and tool results
    hold: what JSON can carry.  A float is kept as its binary64 bit pattern;
    no tool inspects it. *)
Inductive value :=
| VNone
| VBool (b : bool)
| VInt (n : Z)
| VFloat (bits : Z)
| VStr (s : pystr)
| VList (l : list value)
| VDict (d : gmap pystr value).

(** A Python [dict] with [str] keys. *)
Abbreviation pydict := (gmap pystr value).

(** [type(v).__name__] *)
Definition type_name (v : value) : pystr :=
  match v with
  | VNone => py "NoneType"
  | VBool _ => py "bool"
  | VInt _ => py "int"
  | VFloat _ => py "float"
  | VStr _ => py "str"
  | VList _ => py "list"
  | VDict _ => py "dict"
  end.

(** [str(n)] for an [int] (of fewer digits than the interpreter's limit on
    conversions): decimal digits, a minus sign when negative. *)
Definition int_to_str (n : Z) : pystr :=
  py (NilZero.string_of_int (Z.to_int n)).

(** [repr(s)] for a [str] of plain characters, as [KeyError] shows its key. *)
Definition quoted (s : pystr) : pystr := py "'" ++ s ++ py "'".

(** *** Exceptions *)

Inductive exc_class :=
| BaseException
| KeyboardInterrupt
| Exception
| TypeError
| AttributeError
| LookupError
| KeyError
| ValueError
| UnicodeError
| UnicodeDecodeError
| UnicodeEncodeError
| RuntimeError
| OSError
| FileNotFoundError
| PermissionError
| IsADirectoryError.

#[global] Instance exc_class_eq_dec : EqDecision exc_class.
Proof. solve_decision. Defined.

(** The direct base class. *)
Definition base (c : exc_class) : option exc_class :=
  match c with
  | BaseException => None
  | KeyboardInterrupt => Some BaseException
  | Exception => Some BaseException
  | TypeError | AttributeError | LookupError | ValueError
  | RuntimeError | OSError => Some Exception
  | KeyError => Some LookupError
  | UnicodeError => Some ValueError
  | UnicodeDecodeError | UnicodeEncodeError => Some UnicodeError
  | FileNotFoundError | PermissionError | IsADirectoryError => Some OSError
  end.

(** The class and its bases, most specific first.  The hierarchy above is
    four levels deep. *)
Fixpoint ancestors (depth : nat) (c : exc_class) : list exc_class :=
  c :: match depth, base c with
       | S d, Some b => ancestors d b
       | _, _ => []
       end.

Definition issubclass (c parent : exc_class) : bool :=
  bool_decide (parent ∈ ancestors 4 c).

(** An exception object: its class and the text [str(e)] gives. *)
Record exn := Exn { exn_class : exc_class; exn_str : pystr }.

Definition isinstance (e : exn) (c : exc_class) : bool :=
  issubclass (exn_class e) c.

(** *** Computations that read and write a store and may raise *)

Inductive outcome (A : Type) :=
| Return (a : A)
| Raise (e : exn).
Arguments Return {A} a.
Arguments Raise {A} e.

(** A statement run in store [s] ends by returning or by raising; writes made
    before a [raise] stay. *)
Definition M (S A : Type) : Type := S → outcome A * S.

Definition ret {S A} (a : A) : M S A := λ s, (Return a, s).
Definition raise {S A} (e : exn) : M S A := λ s, (Raise e, s).
Definition bind {S A B} (m : M S A) (k : A → M S B) : M S B :=
  λ s, match m s with
       | (Return a, s') => k a s'
       | (Raise e, s') => (Raise e, s')
       end.
Definition gets {S A} (f : S → A) : M S A := λ s, (Return (f s), s).
Definition modify {S} (f : S → S) : M S () := λ s, (Return (), f s).

Notation "x <- m ;; k" := (bind m (λ x, k))
  (at level 100, m at next level, right associativity,
   format "'[v' x  <-  m  ;; '/' k ']'").
Notation "m ;;; k" := (bind m (λ _, k))
  (at level 100, right associativity, format "'[v' m  ;;; '/' k ']'").

(** [try: body except c1 as e: h1 except c2 as e: h2 ...].  The first clause
    whose class the exception is an instance of handles it; an exception that
    a handler raises is not offered to the other clauses. *)
Fixpoint find_clause {S A} (e : exn) (clauses : list (exc_class * (exn → M S A)))
  : option (exn → M S A) :=
  match clauses with
  | [] => None
  | (c, h) :: rest => if isinstance e c then Some h else find_clause e rest
  end.

Definition try_except {S A} (body : M S A)
    (clauses : list (exc_class * (exn → M S A))) : M S A :=
  λ s, match body s with
       | (Return a, s') => (Return a, s')
       | (Raise e, s') =>
           match find_clause e clauses with
           | Some h => h e s'
           | None => (Raise e, s')
           end
       end.

(** *** Operations of the interpreter the tools use *)

(** [obj[key]] for a [str] key.  Only a [dict] can be indexed by a [str]; the
    texts are those of CPython 3.12. *)
Definition getitem {S} (obj : value) (key : pystr) : M S value :=
  match obj with
  | VDict d =>
      match d !! key with
      | Some v => ret v
      | None => raise (Exn KeyError (quoted key))
      end
  | VStr _ =>
      raise (Exn TypeError (py "string indices must be integers, not 'str'"))
  | VList _ =>
      raise (Exn TypeError (py "list indices must be integers or slices, not str"))
  | _ =>
      raise (Exn TypeError
               (py "'" ++ type_name obj ++ py "' object is not subscriptable"))
  end.

Section Unicode.

(** The full upper-case mapping of the interpreter's Unicode database for the
    code points from 128 on (one code point may map to up to three). *)
Variable unicode_upper : N → pystr.

Definition to_upper_full (c : N) : pystr :=
  if (c <? 128)%N
  then [if (97 <=? c)%N && (c <=? 122)%N then (c - 32)%N else c]
  else unicode_upper c.

(** [s.upper()] for a [str]: each code point is replaced by its mapping. *)
Definition str_upper (s : pystr) : pystr := s ≫= to_upper_full.

(** [obj.upper()] for any value: only [str] has the method. *)
Definition call_upper {S} (obj : value) : M S pystr :=
  match obj with
  | VStr s => ret (str_upper s)
  | _ =>
      raise (Exn AttributeError
               (py "'" ++ type_name obj ++ py "' object has no attribute 'upper'"))
  end.

End Unicode.

Section Format.

(** [str(v)] of the interpreter for a value that is not a [str] ([None],
    [True], a number, the [repr] of a list or a dict).  The tools only paste
    its result into texts. *)
Variable str_of : value → pystr.

(** What an f-string puts in place of [{v}]: [str(v)], which for a [str] is
    the text itself. *)
Definition format (v : value) : pystr :=
  match v with
  | VStr s => s
  | _ => str_of v
  end.

End Format.

(** *** Notions the statements below use *)

(** Two texts are equal case-insensitively when they agree once the letters
    A-Z are replaced by a-z. *)
Definition fold_case (c : N) : N :=
  if (65 <=? c)%N && (c <=? 90)%N then (c + 32)%N else c.

Definition caseless_eq (a b : pystr) : Prop := fold_case <$> a = fold_case <$> b.

(** A text within ASCII. *)
Definition is_ascii (s : pystr) : Prop := Forall (λ c, (c < 128)%N) s.

(** An upper-case table without entries (every code point from 128 on is its
    own upper case) and a [str] that shows every value as dots, for running
    the tools on sample inputs whose texts are ASCII. *)
Definition no_case_pairs : N → pystr := λ c, [c].
Definition ellipsis_repr : value → pystr := λ _, py "...".

End Py.

(** ** The confirmation-gated input collector *)

Module Collector.
Import Py.

(** [ToolConfirmation] of the agent framework: the request the tool registers
    and, on the next call, the answer the user gave. *)
Record ToolConfirmation := {
  hint : pystr;
  confirmed : bool;
  payload : value;
}.

(** What the tool sees of its [ToolContext].
    - [state] is the session state, a mapping from [str] keys to values;
    - [tool_confirmation] is [None] until the user has answered (an object of
      the framework's class is always truthy, so [not tool_confirmation]
      holds exactly for [None]);
    - [requested_tool_confirmations] are the requests registered so far
      through [request_confirmation], oldest first. *)
Record ToolContext := {
  state : pydict;
  tool_confirmation : option ToolConfirmation;
  requested_tool_confirmations : list ToolConfirmation;
}.

(** [tool_context.state.get(key, default)] *)
Definition state_get (key : pystr) (default : value) : M ToolContext value :=
  gets (λ ctx, match state ctx !! key with Some v => v | None => default end).

(** [tool_context.state[key] = v] *)
Definition state_set (key : pystr) (v : value) : M ToolContext () :=
  modify (λ ctx,
    {| state := <[key := v]> (state ctx);
       tool_confirmation := tool_confirmation ctx;
       requested_tool_confirmations := requested_tool_confirmations ctx |}).

(** [tool_context.request_confirmation(hint=..., payload=...)]: the framework
    records the request for the function call being served and returns. *)
Definition request_confirmation (h : pystr) (p : value) : M ToolContext () :=
  modify (λ ctx,
    {| state := state ctx;
       tool_confirmation := tool_confirmation ctx;
       requested_tool_confirmations :=
         requested_tool_confirmations ctx
           ++ [ {| hint := h; confirmed := false; payload := p |} ] |}).

(** The [user_response] field of a reply payload, if the payload is a mapping
    that has one. *)
Definition user_response_of (p : value) : option value :=
  match p with
  | VDict d => d !! py "user_response"
  | _ => None
  end.

Definition is_str (v : value) : bool :=
  match v with VStr _ => true | _ => false end.

(** A reply payload is malformed when it has no [user_response] field or the
    field is not a [str]. *)
Definition malformed (p : value) : bool :=
  match user_response_of p with
  | Some v => negb (is_str v)
  | None => true
  end.

(** The context after [state["user_input"] = v]. *)
Definition with_user_input (v : value) (ctx : ToolContext) : ToolContext :=
  {| state := <[py "user_input" := v]> (state ctx);
     tool_confirmation := tool_confirmation ctx;
     requested_tool_confirmations := requested_tool_confirmations ctx |}.

(** The context with other registered requests. *)
Definition with_requests (reqs : list ToolConfirmation) (ctx : ToolContext)
  : ToolContext :=
  {| state := state ctx;
     tool_confirmation := tool_confirmation ctx;
     requested_tool_confirmations := reqs |}.

Section Tool.

Variable unicode_upper : N → pystr.
Variable str_of : value → pystr.

(** The hint of lines 25-28. *)
Definition confirmation_hint (critique : value) : pystr :=
  py "To improve your resume, please provide: " ++ format str_of critique
    ++ LF ++ LF
    ++ py "You can also type 'SKIP' to proceed with current resume.".

(** The example payload of line 29. *)
Definition example_payload : value :=
  VDict {[ py "user_response" := VStr (py "your input here") ]}.

(** The result of lines 31-34. *)
Definition awaiting_result : pydict :=
  {[ py "status" := VStr (py "awaiting_user_input");
     py "message" := VStr (py "Waiting for user response...") ]}.

(** The result of lines 47-51. *)
Definition skip_text : pystr :=
  py "User chose to proceed without additional information".

Definition skipped_result : pydict :=
  {[ py "status" := VStr (py "skipped");
     py "user_input" := VStr skip_text;
     py "message" := VStr (py "Proceeding with current resume...") ]}.

(** The result of lines 53-56. *)
Definition collected_result (user_response : value) : pydict :=
  {[ py "status" := VStr (py "info_collected");
     py "user_input" := user_response ]}.

(** The result of lines 58-61. *)
Definition error_result (e : exn) : pydict :=
  {[ py "status" := VStr (py "error");
     py "message" := VStr (py "An error occurred: " ++ exn_str e) ]}.

(** The body of the [try] statement, lines 37-56. *)
Definition reply_body (tc : ToolConfirmation) : M ToolContext pydict :=
  user_response <- getitem (payload tc) (py "user_response") ;;
  user_input <- state_get (py "user_input") (VStr (py "")) ;;
  let user_input := user_response in
  state_set (py "user_input") user_input ;;;
  upper <- call_upper unicode_upper user_response ;;
  if decide (upper = py "SKIP")
  then ret skipped_result
  else ret (collected_result user_response).

(** The tool, lines 10-61: without a confirmation it asks and reports that it
    waits; with one it stores the answer and classifies it. *)
Definition resume_gap_asker_tool : M ToolContext pydict :=
  critique <- state_get (py "critique") (VStr (py "")) ;;
  tool_confirmation <- gets tool_confirmation ;;
  match tool_confirmation with
  | None =>
      let hint := confirmation_hint critique in
      request_confirmation hint example_payload ;;;
      ret awaiting_result
  | Some tool_confirmation =>
      try_except (reply_body tool_confirmation)
        [ (Exception, λ e, ret (error_result e)) ]
  end.

End Tool.

(** *** Sample inputs *)

(** The critique of the end-to-end scenarios. *)
Definition sample_critique : value :=
  VStr (py "Add a quantified achievement to Project X").

(** A first call: the critique is in the state, nothing was asked yet. *)
Definition first_call_context : ToolContext :=
  {| state := {[ py "critique" := sample_critique ]};
     tool_confirmation := None;
     requested_tool_confirmations := [] |}.

(** A call carrying a confirmation with the given payload, in a session where
    no request was ever registered. *)
Definition reply_context (p : value) : ToolContext :=
  {| state := {[ py "critique" := sample_critique ]};
     tool_confirmation := Some {| hint := py ""; confirmed := true; payload := p |};
     requested_tool_confirmations := [] |}.

(** The payload [{"user_response": v}]. *)
Definition reply (v : value) : value := VDict {[ py "user_response" := v ]}.

(** *** The second call *)

(** The context of the call the framework makes once the user has answered:
    the same session, with the confirmation attached. *)
Definition with_confirmation (tc : ToolConfirmation) (ctx : ToolContext)
  : ToolContext :=
  {| state := state ctx;
     tool_confirmation := Some tc;
     requested_tool_confirmations := requested_tool_confirmations ctx |}.

(** The confirmation [reply_context] carries. *)
Definition confirmation_with (p : value) : ToolConfirmation :=
  {| hint := py ""; confirmed := true; payload := p |}.

End Collector.

(** ** The template loader *)

Module Template.
Import Py.

(** What opening a path for reading and reading it to the end gives: the text
    of a regular file, or the exception the attempt ends in (no permission, a
    directory, bytes that are not UTF-8, an interrupt, ...). *)
Inductive node :=
| RegularFile (text : pystr)
| Unreadable (e : exn).

(** Local storage: the paths that exist. *)
Abbreviation storage := (gmap pystr node).

(** [with open(path, 'r', encoding='utf-8') as f: f.read()] *)
Definition open_read (path : pystr) : M storage pystr :=
  disk <- gets (λ disk : storage, disk) ;;
  match disk !! path with
  | None =>
      raise (Exn FileNotFoundError
               (py "[Errno 2] No such file or directory: " ++ quoted path))
  | Some (RegularFile text) => ret text
  | Some (Unreadable e) => raise e
  end.

Section Tool.

(** The path [Path(__file__).parent / "resume.tex"], as text. *)
Variable template_path : pystr.

(** The tool, lines 63-80. *)
Definition get_latex_template_tool : M storage pystr :=
  try_except
    (latex_content <- open_read template_path ;;
     ret latex_content)
    [ (FileNotFoundError, λ _,
         raise (Exn FileNotFoundError
                  (py "LaTeX template not found at: " ++ template_path)));
      (Exception, λ e,
         raise (Exn Exception
                  (py "Error reading LaTeX template: " ++ exn_str e))) ].

End Tool.

(** *** Sample inputs *)

(** A path, a template text, and the exception of a read without permission. *)
Definition sample_path : pystr := py "/app/my_agent/resume.tex".
Definition sample_template : pystr := py "\documentclass{article}".
Definition permission_denied : exn :=
  Exn PermissionError
    (py "[Errno 13] Permission denied: '/app/my_agent/resume.tex'").

(** The exception of a read cut short by the user's interrupt. *)
Definition interrupted : exn := Exn KeyboardInterrupt (py "").

End Template.

(** ** The artifact writer *)

Module Artifact.
Import Py.

(** [types.Blob] and [types.Part] with inline data. *)
Record Blob := { mime_type : pystr; data : pybytes }.
Record Part := { inline_data : Blob }.

(** The artifact service of the run.  The in-memory service keeps, for each
    filename, the list of saved versions; version [n] is the element at index
    [n].  [Failing e] stands for a service whose save ends in [e] (a storage
    backend out of reach, say). *)
Inductive ArtifactService :=
| InMemory (artifacts : gmap pystr (list Part))
| Failing (e : exn).

(** What the tool sees of the world: the artifact service its [ToolContext]
    reaches ([None] when the runner was given none) and the lines printed on
    standard output. *)
Record World := {
  artifact_service : option ArtifactService;
  stdout : list pystr;
}.

(** The versions saved under a filename, oldest first. *)
Definition versions_of (artifacts : gmap pystr (list Part)) (filename : pystr)
  : list Part :=
  match artifacts !! filename with Some vs => vs | None => [] end.

(** [await tool_context.save_artifact(filename=..., artifact=...)]: without a
    service the context raises [ValueError]; the in-memory service appends the
    part to the versions of the filename and returns its index. *)
Definition save_artifact (filename : pystr) (artifact : Part) : M World Z :=
  service <- gets artifact_service ;;
  match service with
  | None => raise (Exn ValueError (py "Artifact service is not initialized."))
  | Some (Failing e) => raise e
  | Some (InMemory artifacts) =>
      let versions := versions_of artifacts filename in
      let version := Z.of_nat (length versions) in
      modify (λ w,
        {| artifact_service :=
             Some (InMemory (<[filename := versions ++ [artifact]]> artifacts));
           stdout := stdout w |}) ;;;
      ret version
  end.

(** [print(line)] *)
Definition print (line : pystr) : M World () :=
  modify (λ w,
    {| artifact_service := artifact_service w; stdout := stdout w ++ [line] |}).

(** The UTF-8 bytes of one code point; a surrogate has none. *)
Definition utf8_of_codepoint (c : N) : option pybytes :=
  if (c <? 0x80)%N then Some [c]
  else if (c <? 0x800)%N then
    Some [N.lor 0xC0 (N.shiftr c 6); N.lor 0x80 (N.land c 0x3F)]
  else if (0xD800 <=? c)%N && (c <=? 0xDFFF)%N then None
  else if (c <? 0x10000)%N then
    Some [N.lor 0xE0 (N.shiftr c 12);
          N.lor 0x80 (N.land (N.shiftr c 6) 0x3F);
          N.lor 0x80 (N.land c 0x3F)]
  else
    Some [N.lor 0xF0 (N.shiftr c 18);
          N.lor 0x80 (N.land (N.shiftr c 12) 0x3F);
          N.lor 0x80 (N.land (N.shiftr c 6) 0x3F);
          N.lor 0x80 (N.land c 0x3F)].

Fixpoint utf8 (s : pystr) : option pybytes :=
  match s with
  | [] => Some []
  | c :: rest =>
      match utf8_of_codepoint c, utf8 rest with
      | Some bs, Some bs' => Some (bs ++ bs')
      | _, _ => None
      end
  end.

(** [s.encode('utf-8')].  The interpreter's message also names the character
    and its position; only the reason is kept here. *)
Definition encode_utf8 {S} (s : pystr) : M S pybytes :=
  match utf8 s with
  | Some bs => ret bs
  | None =>
      raise (Exn UnicodeEncodeError
               (py "'utf-8' codec can't encode character: surrogates not allowed"))
  end.

(** The name under which the LaTeX is saved, line 94. *)
Definition filename : pystr := py "generated_resume_latex.tex".

(** The result of lines 98-102. *)
Definition success_result (version : Z) : value :=
  VDict {[ py "status" := VStr (py "success");
           py "message" :=
             VStr (py "File '" ++ filename ++ py "' (version "
                     ++ int_to_str version
                     ++ py ") has been created and is now available for download.") ]}.

(** The line of line 104. *)
Definition not_configured_line (e : exn) : pystr :=
  py "Error saving LaTeX artifact: " ++ exn_str e
    ++ py ". Is ArtifactService configured in Runner?".

(** The line of line 106. *)
Definition unexpected_line (e : exn) : pystr :=
  py "An unexpected error occurred during LaTeX artifact save: " ++ exn_str e.

(** The tool, lines 82-106: the coroutine run to completion.  A handler that
    ends without [return] lets the function return [None]. *)
Definition save_generated_resume_latex (latex_content : pystr) : M World value :=
  latex_bytes <- encode_utf8 latex_content ;;
  let artifact_part :=
    {| inline_data := {| mime_type := py "text/plain"; data := latex_bytes |} |} in
  let filename := filename in
  try_except
    (version <- save_artifact filename artifact_part ;;
     ret (success_result version))
    [ (ValueError, λ e, print (not_configured_line e) ;;; ret VNone);
      (Exception, λ e, print (unexpected_line e) ;;; ret VNone) ].

(** *** Sample inputs *)

(** A run with an empty in-memory service, a run without a service, and a
    run whose service cannot reach its storage. *)
Definition fresh_world : World :=
  {| artifact_service := Some (InMemory ∅); stdout := [] |}.
Definition unconfigured_world : World :=
  {| artifact_service := None; stdout := [] |}.
Definition storage_down : exn := Exn RuntimeError (py "storage unavailable").
Definition failing_world : World :=
  {| artifact_service := Some (Failing storage_down); stdout := [] |}.
Definition sample_latex : pystr := py "\documentclass{article}".

(** *** Notions the statements below use *)

(** The part the writer builds from the bytes of the LaTeX, lines 88-93. *)
Definition text_part (bytes : pybytes) : Part :=
  {| inline_data := {| mime_type := py "text/plain"; data := bytes |} |}.

(** A surrogate code point. *)
Definition is_surrogate (c : N) : Prop := (0xD800 ≤ c ≤ 0xDFFF)%N.

(** A service that fails like a decoder would, and one stopped by an
    interrupt. *)
Definition bad_value : exn := Exn UnicodeDecodeError (py "invalid start byte").
Definition interrupted : exn := Exn KeyboardInterrupt (py "").

End Artifact.

(** * Properties *)

(** ** The collector *)

Module CollectorFacts.
Import Py Collector.

(** Unfolds the statements of a tool down to matches on its input. *)
Ltac run :=
  cbv beta iota zeta delta
    [resume_gap_asker_tool reply_body state_get state_set request_confirmation
     getitem call_upper try_except find_clause
     bind ret raise gets modify with_user_input with_requests].

(** A code point that folds to a lower-case letter is that letter or its
    capital. *)
Lemma fold_case_letter (c k : N) :
  (97 ≤ k ≤ 122)%N → fold_case c = k → c = k ∨ c = (k - 32)%N.
Proof.
  unfold fold_case. intros Hk.
  destruct (N.leb_spec 65 c), (N.leb_spec c 90); simpl; intros <-;
    [right; lia | by left ..].
Qed.

Section Facts.

Variable unicode_upper : N → pystr.
Variable str_of : value → pystr.

Local Abbreviation tool := (resume_gap_asker_tool unicode_upper str_of).
Local Abbreviation body := (reply_body unicode_upper).
Local Abbreviation upper := (str_upper unicode_upper).

(** *** The tool, case by case *)

Lemma tool_first_call ctx :
  tool_confirmation ctx = None →
  tool ctx =
    (Return awaiting_result,
     with_requests
       (requested_tool_confirmations ctx
          ++ [ {| hint := confirmation_hint str_of
                            (match state ctx !! py "critique" with
                             | Some v => v
                             | None => VStr (py "")
                             end);
                  confirmed := false;
                  payload := example_payload |} ])
       ctx).
Proof.
  destruct ctx as [st conf reqs]; simpl; intros ->. reflexivity.
Qed.

Lemma tool_reply ctx tc :
  tool_confirmation ctx = Some tc →
  tool ctx =
    match body tc ctx with
    | (Return d, ctx') => (Return d, ctx')
    | (Raise e, ctx') =>
        if isinstance e Exception then (Return (error_result e), ctx')
        else (Raise e, ctx')
    end.
Proof.
  destruct ctx as [st conf reqs]; simpl; intros ->.
  cbv beta iota zeta delta
    [resume_gap_asker_tool try_except find_clause bind gets state_get ret
     tool_confirmation].
  destruct (reply_body _ tc _) as [[d|e] ctx']; [done|].
  by destruct (isinstance e Exception).
Qed.

Lemma body_no_field tc ctx :
  user_response_of (payload tc) = None →
  ∃ e, body tc ctx = (Raise e, ctx) ∧ isinstance e Exception = true.
Proof.
  intros H. run. destruct (payload tc) as [| | | | |l|d]; simpl in H;
    try (eexists; split; [reflexivity|reflexivity]).
  rewrite H. eexists; split; reflexivity.
Qed.

Lemma body_str tc ctx s :
  user_response_of (payload tc) = Some (VStr s) →
  body tc ctx =
    (Return (if decide (upper s = py "SKIP")
             then skipped_result else collected_result (VStr s)),
     with_user_input (VStr s) ctx).
Proof.
  intros H. run. destruct (payload tc); simpl in H; try discriminate.
  rewrite H. cbv beta iota. by destruct (decide _).
Qed.

Lemma body_not_str tc ctx v :
  user_response_of (payload tc) = Some v → is_str v = false →
  ∃ e, body tc ctx = (Raise e, with_user_input v ctx)
       ∧ isinstance e Exception = true.
Proof.
  intros H Hv. run. destruct (payload tc); simpl in H; try discriminate.
  rewrite H. cbv beta iota.
  destruct v; try discriminate; eexists; split; reflexivity.
Qed.

Lemma tool_reply_cases ctx tc :
  tool_confirmation ctx = Some tc →
  match user_response_of (payload tc) with
  | None =>
      ∃ e, body tc ctx = (Raise e, ctx)
           ∧ tool ctx = (Return (error_result e), ctx)
  | Some (VStr s) =>
      body tc ctx =
        (Return (if decide (upper s = py "SKIP")
                 then skipped_result else collected_result (VStr s)),
         with_user_input (VStr s) ctx)
      ∧ tool ctx = body tc ctx
  | Some v =>
      ∃ e, body tc ctx = (Raise e, with_user_input v ctx)
           ∧ tool ctx = (Return (error_result e), with_user_input v ctx)
  end.
Proof.
  intros Hc. rewrite (tool_reply _ _ Hc).
  destruct (user_response_of (payload tc)) as [v|] eqn:Hp.
  - destruct (is_str v) eqn:Hv.
    + destruct v; try discriminate. rewrite (body_str _ _ _ Hp). done.
    + destruct (body_not_str _ ctx _ Hp Hv) as (e & -> & ->).
      destruct v; try discriminate; eauto.
  - destruct (body_no_field _ ctx Hp) as (e & -> & ->). eauto.
Qed.

(** The status of each result. *)
Lemma awaiting_status :
  awaiting_result !! py "status" = Some (VStr (py "awaiting_user_input")).
Proof. reflexivity. Qed.

Lemma skipped_status :
  skipped_result !! py "status" = Some (VStr (py "skipped")).
Proof. reflexivity. Qed.

Lemma skipped_user_input :
  skipped_result !! py "user_input" = Some (VStr skip_text).
Proof. reflexivity. Qed.

Lemma collected_status v :
  collected_result v !! py "status" = Some (VStr (py "info_collected")).
Proof. reflexivity. Qed.

Lemma collected_user_input v :
  collected_result v !! py "user_input" = Some v.
Proof. reflexivity. Qed.

Lemma error_status e :
  error_result e !! py "status" = Some (VStr (py "error")).
Proof. reflexivity. Qed.

Lemma error_message e :
  error_result e !! py "message"
  = Some (VStr (py "An error occurred: " ++ exn_str e)).
Proof. reflexivity. Qed.

(** *** Upper-casing the spellings of SKIP *)

Lemma caseless_skip_upper (r : pystr) :
  caseless_eq r (py "SKIP") → upper r = py "SKIP".
Proof.
  unfold caseless_eq.
  change (fold_case <$> py "SKIP") with [115; 107; 105; 112]%N.
  destruct r as [|a [|b [|c [|d [|? ?]]]]]; try discriminate.
  intros [= Ha Hb Hc Hd].
  destruct (fold_case_letter a 115 ltac:(lia) Ha) as [-> | ->];
    destruct (fold_case_letter b 107 ltac:(lia) Hb) as [-> | ->];
    destruct (fold_case_letter c 105 ltac:(lia) Hc) as [-> | ->];
    destruct (fold_case_letter d 112 ltac:(lia) Hd) as [-> | ->];
    reflexivity.
Qed.

Lemma skip_text_not_caseless_skip (r : pystr) :
  caseless_eq r (py "SKIP") → skip_text ≠ r.
Proof.
  unfold caseless_eq. intros H <-.
  apply (f_equal length) in H. vm_compute in H. discriminate H.
Qed.

(** *** The first call *)

(** C1.  Whatever the session state holds (so whatever the critique is), a
    call without a confirmation returns the status awaiting_user_input,
    registers exactly one confirmation request, which carries the hint built
    from the critique and the example payload, and leaves the session state,
    the key user_input included, as it was. *)
Theorem first_call_awaits ctx :
  tool_confirmation ctx = None →
  ∃ result ctx' request,
    tool ctx = (Return result, ctx')
    ∧ result !! py "status" = Some (VStr (py "awaiting_user_input"))
    ∧ requested_tool_confirmations ctx'
      = requested_tool_confirmations ctx ++ [request]
    ∧ hint request
      = confirmation_hint str_of
          (default (VStr (py "")) (state ctx !! py "critique"))
    ∧ payload request = example_payload
    ∧ state ctx' = state ctx
    ∧ state ctx' !! py "user_input" = state ctx !! py "user_input".
Proof.
  intros H. rewrite (tool_first_call _ H).
  eexists _, _, _. split; [reflexivity|].
  split; [apply awaiting_status|].
  split; [reflexivity|].
  split; [by destruct (state ctx !! py "critique")|].
  done.
Qed.

(** *** Replies *)

(** C2.  A reply whose user_response is a text R with R.upper() different
    from SKIP gives the status info_collected, returns R itself as
    user_input, and leaves R in the session state under user_input. *)
Theorem reply_passes_through ctx tc (R : pystr) :
  tool_confirmation ctx = Some tc →
  user_response_of (payload tc) = Some (VStr R) →
  upper R ≠ py "SKIP" →
  ∃ result ctx',
    tool ctx = (Return result, ctx')
    ∧ result !! py "status" = Some (VStr (py "info_collected"))
    ∧ result !! py "user_input" = Some (VStr R)
    ∧ state ctx' !! py "user_input" = Some (VStr R).
Proof.
  intros Hc Hp Hne.
  pose proof (tool_reply_cases _ _ Hc) as H. rewrite Hp in H.
  destruct H as [Hb ->]. rewrite Hb.
  rewrite decide_False by done.
  eexists _, _. split; [reflexivity|].
  split; [apply collected_status|].
  split; [apply collected_user_input|].
  apply lookup_insert_eq.
Qed.

(** C3.  A reply that spells SKIP in any mix of upper and lower case gives
    the status skipped, and the user_input of the result is the fixed text
    of the tool, which is not the reply. *)
Theorem skip_any_case ctx tc (R : pystr) :
  tool_confirmation ctx = Some tc →
  user_response_of (payload tc) = Some (VStr R) →
  caseless_eq R (py "SKIP") →
  ∃ result ctx',
    tool ctx = (Return result, ctx')
    ∧ result !! py "status" = Some (VStr (py "skipped"))
    ∧ result !! py "user_input" = Some (VStr skip_text)
    ∧ skip_text ≠ R.
Proof.
  intros Hc Hp Hr.
  pose proof (tool_reply_cases _ _ Hc) as H. rewrite Hp in H.
  destruct H as [Hb ->]. rewrite Hb.
  rewrite decide_True by by apply caseless_skip_upper.
  eexists _, _. split; [reflexivity|].
  split; [apply skipped_status|].
  split; [apply skipped_user_input|].
  by apply skip_text_not_caseless_skip.
Qed.

(** C4, as the code has it.  After a reply whose user_response is the text
    SKIP, the session state holds that reply, the literal SKIP, under
    user_input; the fixed explanatory text is the user_input of the returned
    result only. *)
Theorem skip_state_holds_reply ctx tc :
  tool_confirmation ctx = Some tc →
  user_response_of (payload tc) = Some (VStr (py "SKIP")) →
  ∃ result ctx',
    tool ctx = (Return result, ctx')
    ∧ result !! py "status" = Some (VStr (py "skipped"))
    ∧ result !! py "user_input" = Some (VStr skip_text)
    ∧ state ctx' !! py "user_input" = Some (VStr (py "SKIP"))
    ∧ skip_text ≠ py "SKIP".
Proof.
  intros Hc Hp.
  pose proof (tool_reply_cases _ _ Hc) as H. rewrite Hp in H.
  destruct H as [Hb ->]. rewrite Hb.
  rewrite decide_True by reflexivity.
  eexists _, _. split; [reflexivity|].
  split; [apply skipped_status|].
  split; [apply skipped_user_input|].
  split; [apply lookup_insert_eq|discriminate].
Qed.

(** *** Malformed replies *)

(** A value that is not a text is stored under user_input before the tool
    fails on it. *)
Lemma non_text_reply_written ctx tc v :
  tool_confirmation ctx = Some tc →
  user_response_of (payload tc) = Some v → is_str v = false →
  ∃ result,
    tool ctx = (Return result, with_user_input v ctx)
    ∧ result !! py "status" = Some (VStr (py "error")).
Proof.
  intros Hc Hp Hv. pose proof (tool_reply_cases _ _ Hc) as H.
  rewrite Hp in H.
  destruct v; try discriminate; destruct H as (e & _ & ->);
    eexists; (split; [reflexivity|apply error_status]).
Qed.

(** C5, as the code has it.  Every malformed reply, one without the
    user_response field or one whose field is not a text, gives the status
    error.  When the field is missing the context, and with it the value of
    user_input, is left as it was. *)
Theorem malformed_reply_is_error ctx tc :
  tool_confirmation ctx = Some tc →
  malformed (payload tc) = true →
  ∃ result ctx',
    tool ctx = (Return result, ctx')
    ∧ result !! py "status" = Some (VStr (py "error"))
    ∧ (user_response_of (payload tc) = None →
       ctx' = ctx
       ∧ state ctx' !! py "user_input" = state ctx !! py "user_input").
Proof.
  intros Hc Hm. unfold malformed in Hm.
  destruct (user_response_of (payload tc)) as [v|] eqn:Hp.
  - apply negb_true_iff in Hm.
    destruct (non_text_reply_written _ _ _ Hc Hp Hm) as (result & -> & Hs).
    eexists _, _. split; [reflexivity|]. split; [exact Hs|]. discriminate.
  - pose proof (tool_reply_cases _ _ Hc) as H. rewrite Hp in H.
    destruct H as (e & _ & ->).
    eexists _, _. split; [reflexivity|]. split; [apply error_status|]. done.
Qed.

(** C6.  On every context the tool returns a dictionary that has a status,
    one of the four the tool knows; it never raises.  Whenever the body of
    its try statement raises, the result is the error dictionary made from
    that exception: status error and a message that quotes it. *)
Theorem always_structured_result ctx :
  ∃ result ctx' status,
    tool ctx = (Return result, ctx')
    ∧ result !! py "status" = Some (VStr status)
    ∧ status ∈ [py "awaiting_user_input"; py "skipped";
                py "info_collected"; py "error"]
    ∧ (∀ tc e ctx1,
         tool_confirmation ctx = Some tc → body tc ctx = (Raise e, ctx1) →
         ctx' = ctx1
         ∧ result !! py "status" = Some (VStr (py "error"))
         ∧ result !! py "message"
           = Some (VStr (py "An error occurred: " ++ exn_str e))).
Proof.
  destruct (tool_confirmation ctx) as [tc|] eqn:Hc.
  - pose proof (tool_reply_cases _ _ Hc) as H.
    assert (∀ e c, tool ctx = (Return (error_result e), c) →
            body tc ctx = (Raise e, c) →
            ∃ result ctx' status,
              tool ctx = (Return result, ctx')
              ∧ result !! py "status" = Some (VStr status)
              ∧ status ∈ [py "awaiting_user_input"; py "skipped";
                          py "info_collected"; py "error"]
              ∧ (∀ tc0 e0 ctx1,
                   Some tc = Some tc0 → body tc0 ctx = (Raise e0, ctx1) →
                   ctx' = ctx1
                   ∧ result !! py "status" = Some (VStr (py "error"))
                   ∧ result !! py "message"
                     = Some (VStr (py "An error occurred: " ++ exn_str e0))))
      as Herr.
    { intros e c Ht Hb. eexists _, _, _. split; [exact Ht|].
      split; [apply error_status|]. split; [set_solver|].
      intros tc0 e0 ctx1 [= <-]. rewrite Hb. intros [= <- <-].
      split; [done|]. split; [apply error_status|apply error_message]. }
    destruct (user_response_of (payload tc)) as [v|].
    + destruct v; try (destruct H as (e & Hb & Ht); by eapply Herr).
      destruct H as [Hb Ht]. rewrite Ht, Hb.
      destruct (decide _); eexists _, _, _; (split; [reflexivity|]).
      * split; [apply skipped_status|]. split; [set_solver|].
        intros tc0 e0 ctx1 [= <-]. rewrite Hb. discriminate.
      * split; [apply collected_status|]. split; [set_solver|].
        intros tc0 e0 ctx1 [= <-]. rewrite Hb. discriminate.
    + destruct H as (e & Hb & Ht); by eapply Herr.
  - rewrite (tool_first_call _ Hc). eexists _, _, _. split; [reflexivity|].
    split; [apply awaiting_status|]. split; [set_solver|]. discriminate.
Qed.

(** *** Replies nobody asked for *)

(** The body of the try statement does not look at the registered requests. *)
Lemma body_with_requests tc ctx reqs :
  body tc (with_requests reqs ctx)
  = ((body tc ctx).1, with_requests reqs (body tc ctx).2).
Proof.
  destruct (user_response_of (payload tc)) as [v|] eqn:Hp.
  - destruct (is_str v) eqn:Hv.
    + destruct v; try discriminate. by rewrite !(body_str _ _ _ Hp).
    + revert Hp Hv. run. destruct (payload tc); simpl; try discriminate.
      intros -> Hv. by destruct v.
  - revert Hp. run. destruct (payload tc); simpl; try done.
    by intros ->.
Qed.

(** A call that carries a reply returns, and registers nothing. *)
Lemma tool_reply_returns ctx tc :
  tool_confirmation ctx = Some tc →
  ∃ result ctx',
    tool ctx = (Return result, ctx')
    ∧ requested_tool_confirmations ctx' = requested_tool_confirmations ctx.
Proof.
  intros Hc. pose proof (tool_reply_cases _ _ Hc) as H.
  destruct (user_response_of (payload tc)) as [v|].
  - destruct v; try (destruct H as (e & _ & ->); by eauto).
    destruct H as [Hb ->]. rewrite Hb. by eauto.
  - destruct H as (e & _ & ->). by eauto.
Qed.

Lemma tool_with_requests ctx tc reqs :
  tool_confirmation ctx = Some tc →
  tool (with_requests reqs ctx)
  = ((tool ctx).1, with_requests reqs (tool ctx).2).
Proof.
  intros Hc.
  assert (tool_confirmation (with_requests reqs ctx) = Some tc) as Hc' by done.
  rewrite (tool_reply _ _ Hc), (tool_reply _ _ Hc'), body_with_requests.
  destruct (body tc ctx) as [[d|e] c]; simpl; [done|].
  by destruct (isinstance e Exception).
Qed.

(** C7, as the code has it.  A call that carries a reply is served the same
    way whatever requests are registered, none included: the result and the
    session state after the call are the same, and the registered requests
    are left as they are.  The tool does not check that it asked. *)
Theorem reply_ignores_requests ctx tc reqs :
  tool_confirmation ctx = Some tc →
  ∃ result ctx',
    tool ctx = (Return result, ctx')
    ∧ tool (with_requests reqs ctx) = (Return result, with_requests reqs ctx')
    ∧ requested_tool_confirmations ctx' = requested_tool_confirmations ctx.
Proof.
  intros Hc. rewrite (tool_with_requests _ _ _ Hc).
  destruct (tool_reply_returns _ _ Hc) as (result & ctx' & -> & Hr).
  by eauto.
Qed.

(** *** What the tool writes *)

(** The session state after a call is the state before it, or that state
    with one value put under user_input. *)
Lemma tool_final_state ctx :
  state (tool ctx).2 = state ctx
  ∨ ∃ v, state (tool ctx).2 = <[py "user_input" := v]> (state ctx).
Proof.
  destruct (tool_confirmation ctx) as [tc|] eqn:Hc.
  - pose proof (tool_reply_cases _ _ Hc) as H.
    destruct (user_response_of (payload tc)) as [v|].
    + right. exists v.
      destruct v; try (destruct H as (e & _ & ->); reflexivity).
      destruct H as [Hb ->]. by rewrite Hb.
    + left. by destruct H as (e & _ & ->).
  - left. by rewrite (tool_first_call _ Hc).
Qed.

(** C10.  Whatever the call, every key of the session state other than
    user_input keeps its value (or stays absent), and no key that was present
    is absent afterwards. *)
Theorem only_user_input_written ctx :
  (∀ key, key ≠ py "user_input" →
     state (tool ctx).2 !! key = state ctx !! key)
  ∧ (∀ key, is_Some (state ctx !! key) → is_Some (state (tool ctx).2 !! key)).
Proof.
  destruct (tool_final_state ctx) as [-> | [v ->]]; [done|]. split.
  - intros key Hk. by rewrite lookup_insert_ne.
  - intros key Hk. destruct (decide (key = py "user_input")) as [->|Hne].
    + rewrite lookup_insert_eq. eauto.
    + by rewrite lookup_insert_ne.
Qed.

End Facts.

(** *** The theorems on sample calls *)

(** The tool under an interpreter whose upper-case table has no entries. *)
Local Abbreviation sample_tool :=
  (resume_gap_asker_tool no_case_pairs ellipsis_repr).

(** The first call of the end-to-end scenario. *)
Lemma first_call_awaits_witness :
  tool_confirmation first_call_context = None
  ∧ ∃ result ctx',
      sample_tool first_call_context = (Return result, ctx')
      ∧ result !! py "status" = Some (VStr (py "awaiting_user_input"))
      ∧ length (requested_tool_confirmations ctx') = 1
      ∧ state ctx' = state first_call_context.
Proof.
  split; [reflexivity|].
  destruct (first_call_awaits no_case_pairs ellipsis_repr first_call_context)
    as (result & ctx' & request & Ht & Hs & Hr & _ & _ & Hst & _);
    [reflexivity|].
  exists result, ctx'. rewrite Hr. done.
Defined.

(** The answer of the second end-to-end scenario. *)
Lemma reply_passes_through_witness :
  let R := py "I led a 3-person team and cut load time 40%" in
  str_upper no_case_pairs R ≠ py "SKIP"
  ∧ ∃ result ctx',
      sample_tool (reply_context (reply (VStr R))) = (Return result, ctx')
      ∧ result !! py "status" = Some (VStr (py "info_collected"))
      ∧ result !! py "user_input" = Some (VStr R)
      ∧ state ctx' !! py "user_input" = Some (VStr R).
Proof.
  intros R.
  assert (str_upper no_case_pairs R ≠ py "SKIP") as Hne by (vm_compute; discriminate).
  split; [exact Hne|].
  exact (reply_passes_through no_case_pairs ellipsis_repr
           (reply_context (reply (VStr R))) _ R eq_refl eq_refl Hne).
Defined.

(** The reply Skip. *)
Lemma skip_any_case_witness :
  caseless_eq (py "Skip") (py "SKIP")
  ∧ ∃ result ctx',
      sample_tool (reply_context (reply (VStr (py "Skip")))) = (Return result, ctx')
      ∧ result !! py "status" = Some (VStr (py "skipped"))
      ∧ result !! py "user_input" = Some (VStr skip_text)
      ∧ skip_text ≠ py "Skip".
Proof.
  split; [reflexivity|].
  exact (skip_any_case no_case_pairs ellipsis_repr
           (reply_context (reply (VStr (py "Skip")))) _ (py "Skip")
           eq_refl eq_refl eq_refl).
Defined.

(** C4 as stated fails.  After the reply SKIP the session state holds the
    literal SKIP under user_input, not the explanatory text. *)
Lemma skip_reply_state_is_literal :
  let ctx' := (sample_tool (reply_context (reply (VStr (py "SKIP"))))).2 in
  state ctx' !! py "user_input" = Some (VStr (py "SKIP"))
  ∧ state ctx' !! py "user_input" ≠ Some (VStr skip_text).
Proof. split; [reflexivity|]. vm_compute. discriminate. Qed.

(** The reply SKIP of the first end-to-end scenario. *)
Lemma skip_state_holds_reply_witness :
  ∃ result ctx',
    sample_tool (reply_context (reply (VStr (py "SKIP")))) = (Return result, ctx')
    ∧ result !! py "status" = Some (VStr (py "skipped"))
    ∧ result !! py "user_input" = Some (VStr skip_text)
    ∧ state ctx' !! py "user_input" = Some (VStr (py "SKIP"))
    ∧ skip_text ≠ py "SKIP".
Proof.
  exact (skip_state_holds_reply no_case_pairs ellipsis_repr
           (reply_context (reply (VStr (py "SKIP")))) _ eq_refl eq_refl).
Defined.

(** C5 as stated fails.  The reply whose user_response is the number 42 is
    malformed and gives the status error, yet user_input, absent before the
    call, holds 42 after it. *)
Lemma non_text_reply_is_stored :
  let ctx := reply_context (reply (VInt 42)) in
  is_str (VInt 42) = false
  ∧ (∃ result, (sample_tool ctx).1 = Return result
               ∧ result !! py "status" = Some (VStr (py "error")))
  ∧ state ctx !! py "user_input" = None
  ∧ state (sample_tool ctx).2 !! py "user_input" = Some (VInt 42)
  ∧ state (sample_tool ctx).2 !! py "user_input" ≠ state ctx !! py "user_input".
Proof.
  split; [reflexivity|]. split; [eexists; split; reflexivity|].
  split; [reflexivity|]. split; [reflexivity|]. vm_compute. discriminate.
Qed.

(** An empty payload and a payload whose user_response is a number. *)
Lemma malformed_reply_is_error_witness :
  malformed (VDict ∅) = true
  ∧ malformed (reply (VInt 42)) = true
  ∧ (∃ result,
       sample_tool (reply_context (VDict ∅))
       = (Return result, reply_context (VDict ∅))
       ∧ result !! py "status" = Some (VStr (py "error")))
  ∧ (∃ result ctx',
       sample_tool (reply_context (reply (VInt 42))) = (Return result, ctx')
       ∧ result !! py "status" = Some (VStr (py "error"))).
Proof.
  split; [reflexivity|]. split; [reflexivity|]. split.
  - destruct (malformed_reply_is_error no_case_pairs ellipsis_repr
                (reply_context (VDict ∅)) _ eq_refl)
      as (result & ctx' & Ht & Hs & Hsame); [reflexivity|].
    destruct Hsame as [-> _]; [reflexivity|]. by exists result.
  - destruct (malformed_reply_is_error no_case_pairs ellipsis_repr
                (reply_context (reply (VInt 42))) _ eq_refl)
      as (result & ctx' & Ht & Hs & _); [reflexivity|].
    by exists result, ctx'.
Defined.

(** A confirmation without a payload: indexing None fails, and the failure
    comes back as a result. *)
Lemma always_structured_result_witness :
  ∃ result ctx',
    sample_tool (reply_context VNone) = (Return result, ctx')
    ∧ result !! py "status" = Some (VStr (py "error"))
    ∧ result !! py "message"
      = Some (VStr (py "An error occurred: 'NoneType' object is not subscriptable")).
Proof.
  destruct (always_structured_result no_case_pairs ellipsis_repr
              (reply_context VNone))
    as (result & ctx' & status & Ht & _ & _ & Herr).
  destruct (Herr _ (Exn TypeError (py "'NoneType' object is not subscriptable"))
              (reply_context VNone) eq_refl eq_refl) as (_ & Hs & Hm).
  exists result, ctx'. done.
Defined.

(** C7 as stated fails.  No request is registered, the call carries the reply
    hello, and the tool accepts it: the status is info_collected, not error,
    and user_input is written. *)
Lemma unasked_reply_is_accepted :
  let ctx := reply_context (reply (VStr (py "hello"))) in
  requested_tool_confirmations ctx = []
  ∧ (sample_tool ctx).1 = Return (collected_result (VStr (py "hello")))
  ∧ collected_result (VStr (py "hello")) !! py "status"
    ≠ Some (VStr (py "error"))
  ∧ state ctx !! py "user_input" = None
  ∧ state (sample_tool ctx).2 !! py "user_input" = Some (VStr (py "hello")).
Proof.
  split; [reflexivity|]. split; [reflexivity|].
  split; [vm_compute; discriminate|]. split; reflexivity.
Qed.

(** The same reply with no request registered and with one. *)
Lemma reply_ignores_requests_witness :
  ∃ result ctx',
    sample_tool (reply_context (reply (VStr (py "hello")))) = (Return result, ctx')
    ∧ sample_tool
        (with_requests
           [ {| hint := py "?"; confirmed := false; payload := example_payload |} ]
           (reply_context (reply (VStr (py "hello")))))
      = (Return result,
         with_requests
           [ {| hint := py "?"; confirmed := false; payload := example_payload |} ]
           ctx')
    ∧ requested_tool_confirmations ctx' = [].
Proof.
  exact (reply_ignores_requests no_case_pairs ellipsis_repr
           (reply_context (reply (VStr (py "hello")))) _
           [ {| hint := py "?"; confirmed := false; payload := example_payload |} ]
           eq_refl).
Defined.

(** The critique survives a reply call. *)
Lemma only_user_input_written_witness :
  let ctx := reply_context (reply (VStr (py "hello"))) in
  py "critique" ≠ py "user_input"
  ∧ state (sample_tool ctx).2 !! py "critique" = Some sample_critique.
Proof.
  intros ctx.
  assert (py "critique" ≠ py "user_input") as Hne by discriminate.
  split; [exact Hne|].
  rewrite (proj1 (only_user_input_written no_case_pairs ellipsis_repr ctx)
             (py "critique") Hne).
  reflexivity.
Defined.

End CollectorFacts.

(** ** The template loader *)

Module TemplateFacts.
Import Py Template.

Section Facts.

Variable template_path : pystr.

Local Abbreviation tool := (get_latex_template_tool template_path).

Ltac run :=
  cbv beta iota zeta delta
    [get_latex_template_tool open_read try_except find_clause
     bind ret raise gets].

(** C8.  When the template is a readable file the loader returns its whole
    text.  When no file is at the path it raises FileNotFoundError.  When
    the read fails with any other exception it raises a plain Exception that
    quotes the failure; that exception is not a FileNotFoundError, so a
    caller that catches FileNotFoundError tells the two apart. *)
Theorem template_loader_outcomes (disk : storage) :
  (∀ text, disk !! template_path = Some (RegularFile text) →
     tool disk = (Return text, disk))
  ∧ (disk !! template_path = None →
     ∃ e, tool disk = (Raise e, disk)
          ∧ isinstance e FileNotFoundError = true
          ∧ exn_str e = py "LaTeX template not found at: " ++ template_path)
  ∧ (∀ e, disk !! template_path = Some (Unreadable e) →
     isinstance e Exception = true → isinstance e FileNotFoundError = false →
     ∃ e', tool disk = (Raise e', disk)
           ∧ exn_class e' = Exception
           ∧ isinstance e' FileNotFoundError = false
           ∧ exn_str e' = py "Error reading LaTeX template: " ++ exn_str e).
Proof.
  split; [|split].
  - intros text H. run. by rewrite H.
  - intros H. run. rewrite H. cbv beta iota.
    eexists. split; [reflexivity|]. done.
  - intros e H He Hnf. run. rewrite H. cbv beta iota. rewrite Hnf, He.
    eexists. split; [reflexivity|]. done.
Qed.

End Facts.

(** A disk with the template, an empty disk, and a disk where the template
    cannot be read. *)
Lemma template_loader_outcomes_witness :
  let tool := get_latex_template_tool sample_path in
  tool {[ sample_path := RegularFile sample_template ]}
    = (Return sample_template, {[ sample_path := RegularFile sample_template ]})
  ∧ (∃ e, tool ∅ = (Raise e, ∅) ∧ isinstance e FileNotFoundError = true)
  ∧ (∃ e, tool {[ sample_path := Unreadable permission_denied ]}
          = (Raise e, {[ sample_path := Unreadable permission_denied ]})
          ∧ exn_class e = Exception
          ∧ isinstance e FileNotFoundError = false).
Proof.
  intros tool.
  pose proof (template_loader_outcomes sample_path
                {[ sample_path := RegularFile sample_template ]}) as (Hfile & _ & _).
  pose proof (template_loader_outcomes sample_path ∅) as (_ & Habsent & _).
  pose proof (template_loader_outcomes sample_path
                {[ sample_path := Unreadable permission_denied ]}) as (_ & _ & Hfail).
  split; [|split].
  - apply Hfile. vm_compute. reflexivity.
  - destruct Habsent as (e & Ht & He & _); [vm_compute; reflexivity|].
    by exists e.
  - destruct (Hfail permission_denied) as (e & Ht & Hc & He & _);
      [vm_compute; reflexivity | reflexivity | reflexivity |].
    by exists e.
Defined.

End TemplateFacts.

(** ** The artifact writer *)

Module ArtifactFacts.
Import Py Artifact.

Ltac run :=
  cbv beta iota zeta delta
    [save_generated_resume_latex save_artifact encode_utf8 print
     try_except find_clause bind ret raise gets modify
     artifact_service stdout].

Lemma success_status version :
  ∃ d, success_result version = VDict d
       ∧ d !! py "status" = Some (VStr (py "success"))
       ∧ d !! py "message"
         = Some (VStr (py "File 'generated_resume_latex.tex' (version "
                         ++ int_to_str version
                         ++ py ") has been created and is now available for download.")).
Proof. eexists. split; [reflexivity|]. split; reflexivity. Qed.

Lemma lines_differ e e' : not_configured_line e ≠ unexpected_line e'.
Proof. intros H. apply (f_equal head) in H. discriminate H. Qed.

(** C9, as the code has it.  For a text that UTF-8 can encode:
    - with the in-memory service, the bytes are stored as a text/plain part
      under the fixed filename, at the version equal to the number of
      versions stored before, other filenames are untouched, and the result
      is a dictionary with status success whose message spells that version;
    - without a service the writer prints the line that asks whether the
      service is configured and returns None;
    - when the service fails with another exception the writer prints the
      line for an unexpected error and returns None;
    - the two lines are different. *)
Theorem save_artifact_outcomes (latex_content : pystr) (bytes : pybytes) (w : World) :
  utf8 latex_content = Some bytes →
  (∀ artifacts, artifact_service w = Some (InMemory artifacts) →
     let stored := versions_of artifacts filename in
     let version := Z.of_nat (length stored) in
     let part :=
       {| inline_data := {| mime_type := py "text/plain"; data := bytes |} |} in
     ∃ d artifacts' w',
       save_generated_resume_latex latex_content w = (Return (VDict d), w')
       ∧ d !! py "status" = Some (VStr (py "success"))
       ∧ d !! py "message"
         = Some (VStr (py "File 'generated_resume_latex.tex' (version "
                         ++ int_to_str version
                         ++ py ") has been created and is now available for download."))
       ∧ artifact_service w' = Some (InMemory artifacts')
       ∧ versions_of artifacts' filename = stored ++ [part]
       ∧ versions_of artifacts' filename !! length stored = Some part
       ∧ (∀ other, other ≠ filename → artifacts' !! other = artifacts !! other)
       ∧ stdout w' = stdout w)
  ∧ (artifact_service w = None →
     ∃ e,
       save_generated_resume_latex latex_content w
       = (Return VNone,
          {| artifact_service := None;
             stdout := stdout w ++ [not_configured_line e] |})
       ∧ isinstance e ValueError = true)
  ∧ (∀ e, artifact_service w = Some (Failing e) →
     isinstance e Exception = true → isinstance e ValueError = false →
     save_generated_resume_latex latex_content w
     = (Return VNone,
        {| artifact_service := Some (Failing e);
           stdout := stdout w ++ [unexpected_line e] |}))
  ∧ (∀ e e', not_configured_line e ≠ unexpected_line e').
Proof.
  intros Hu. destruct w as [service out]. simpl.
  split; [|split; [|split]].
  - intros artifacts ->. run. rewrite Hu. cbv beta iota.
    destruct (success_status
                (Z.of_nat (length (versions_of artifacts filename))))
      as (d & Hd & Hs & Hm).
    fold filename. rewrite Hd.
    eexists d, _, _. split; [reflexivity|].
    split; [exact Hs|]. split; [exact Hm|]. split; [reflexivity|].
    assert (versions_of (<[filename := versions_of artifacts filename ++
              [{| inline_data := {| mime_type := py "text/plain"; data := bytes |} |}]]>
              artifacts) filename
            = versions_of artifacts filename ++
              [{| inline_data := {| mime_type := py "text/plain"; data := bytes |} |}])
      as Hv by (unfold versions_of at 1; by rewrite lookup_insert_eq).
    split; [exact Hv|]. split.
    + rewrite Hv. rewrite lookup_app_r by done.
      by rewrite Nat.sub_diag.
    + split; [|done]. intros other Hne. by rewrite lookup_insert_ne.
  - intros ->. run. rewrite Hu. cbv beta iota.
    eexists. split; reflexivity.
  - intros e -> He Hv. run. rewrite Hu. cbv beta iota. rewrite Hv, He.
    reflexivity.
  - apply lines_differ.
Qed.

(** C9 as stated fails.  The first save of a run gets version 0 from the
    service, and the writer returns a dictionary with a status and a message,
    not the number 0.  Without a service and with a failing service the
    caller gets the same value, None. *)
Lemma save_returns_status_not_version :
  ∃ d artifacts',
    (save_generated_resume_latex sample_latex fresh_world).1 = Return (VDict d)
    ∧ artifact_service (save_generated_resume_latex sample_latex fresh_world).2
      = Some (InMemory artifacts')
    ∧ length (versions_of artifacts' filename) = 1
    ∧ VDict d ≠ VInt 0
    ∧ d !! py "status" = Some (VStr (py "success"))
    ∧ d !! py "version" = None
    ∧ (save_generated_resume_latex sample_latex unconfigured_world).1
      = Return VNone
    ∧ (save_generated_resume_latex sample_latex failing_world).1
      = Return VNone.
Proof.
  eexists _, _. split; [reflexivity|]. split; [reflexivity|].
  split; [reflexivity|]. split; [discriminate|].
  split; [reflexivity|]. split; [reflexivity|]. split; reflexivity.
Qed.

(** The first save of a run, a run without a service, and a run whose service
    is down. *)
Lemma save_artifact_outcomes_witness :
  (∃ bytes, utf8 sample_latex = Some bytes)
  ∧ (∃ d w',
       save_generated_resume_latex sample_latex fresh_world = (Return (VDict d), w')
       ∧ d !! py "message"
         = Some (VStr (py "File 'generated_resume_latex.tex' (version 0) has been created and is now available for download.")))
  ∧ (∃ line,
       save_generated_resume_latex sample_latex unconfigured_world
       = (Return VNone, {| artifact_service := None; stdout := [line] |}))
  ∧ save_generated_resume_latex sample_latex failing_world
    = (Return VNone,
       {| artifact_service := Some (Failing storage_down);
          stdout := [unexpected_line storage_down] |}).
Proof.
  destruct (utf8 sample_latex) as [bytes|] eqn:Hu; [|vm_compute in Hu; discriminate Hu].
  split; [by exists bytes|].
  pose proof (save_artifact_outcomes sample_latex bytes fresh_world Hu)
    as (Hmem & _ & _ & _).
  pose proof (save_artifact_outcomes sample_latex bytes unconfigured_world Hu)
    as (_ & Hnone & _ & _).
  pose proof (save_artifact_outcomes sample_latex bytes failing_world Hu)
    as (_ & _ & Hfail & _).
  split; [|split].
  - destruct (Hmem ∅ eq_refl) as (d & a' & w' & Ht & _ & Hm & _).
    exists d, w'. split; [exact Ht|exact Hm].
  - destruct (Hnone eq_refl) as (e & Ht & _). eexists. exact Ht.
  - apply (Hfail storage_down); reflexivity.
Defined.

(** A text with a lone surrogate cannot be encoded: the writer raises before
    it reaches the service, and nothing is saved or printed. *)
Lemma save_unencodable latex_content w :
  utf8 latex_content = None →
  ∃ e, save_generated_resume_latex latex_content w = (Raise e, w)
       ∧ exn_class e = UnicodeEncodeError.
Proof. intros Hu. run. rewrite Hu. eexists. split; reflexivity. Qed.

End ArtifactFacts.

(** ** The collector: classification, repetition and the two-call protocol *)

Module CollectorProtocol.
Import Py Collector CollectorFacts.

(** Upper case of one ASCII code point, as [to_upper_full] computes it. *)
Lemma to_upper_full_ascii unicode_upper (c : N) :
  (c < 128)%N →
  to_upper_full unicode_upper c
  = [if (97 <=? c)%N && (c <=? 122)%N then (c - 32)%N else c].
Proof.
  intros Hc. unfold to_upper_full.
  destruct (N.ltb_spec c 128); [done|lia].
Qed.

(** An ASCII code point whose upper case is a capital letter is that letter
    or its small form, so it folds to the small form. *)
Lemma upper_letter_fold (c k : N) :
  (65 ≤ k ≤ 90)%N →
  (if (97 <=? c)%N && (c <=? 122)%N then (c - 32)%N else c) = k →
  fold_case c = (k + 32)%N.
Proof.
  intros Hk. unfold fold_case.
  destruct (N.leb_spec 97 c), (N.leb_spec c 122),
           (N.leb_spec 65 c), (N.leb_spec c 90); simpl; lia.
Qed.

Section Facts.

Variable unicode_upper : N → pystr.
Variable str_of : value → pystr.

Local Abbreviation tool := (resume_gap_asker_tool unicode_upper str_of).
Local Abbreviation upper := (str_upper unicode_upper).

(** For a text within ASCII, upper-casing gives SKIP only for the spellings
    of SKIP. *)
Lemma ascii_upper_skip (r : pystr) :
  is_ascii r → upper r = py "SKIP" → caseless_eq r (py "SKIP").
Proof.
  unfold is_ascii, caseless_eq, str_upper.
  change (py "SKIP") with [83; 75; 73; 80]%N.
  intros Ha.
  destruct Ha as [|a ra Ha1 Ha]; [discriminate|].
  destruct Ha as [|b rb Hb1 Ha]; [rewrite bind_cons, to_upper_full_ascii by done;
                                   discriminate|].
  destruct Ha as [|c rc Hc1 Ha];
    [rewrite !bind_cons, !to_upper_full_ascii by done; discriminate|].
  destruct Ha as [|d rd Hd1 Ha];
    [rewrite !bind_cons, !to_upper_full_ascii by done; discriminate|].
  rewrite !bind_cons, !to_upper_full_ascii by done.
  destruct Ha as [|e re He1 Ha].
  - intros [= Ea Eb Ec Ed]. simpl.
    rewrite (upper_letter_fold a 83), (upper_letter_fold b 75),
      (upper_letter_fold c 73), (upper_letter_fold d 80) by (done || lia).
    reflexivity.
  - rewrite bind_cons, to_upper_full_ascii by done. discriminate.
Qed.

(** The four dictionaries the tool can return. *)
Lemma tool_result_forms ctx :
  ∃ result ctx',
    tool ctx = (Return result, ctx')
    ∧ (result = awaiting_result ∨ result = skipped_result
       ∨ (∃ s, result = collected_result (VStr s)) ∨ ∃ e, result = error_result e).
Proof.
  assert (∀ e c, tool ctx = (Return (error_result e), c) →
          ∃ result ctx',
            tool ctx = (Return result, ctx')
            ∧ (result = awaiting_result ∨ result = skipped_result
               ∨ (∃ s, result = collected_result (VStr s))
               ∨ ∃ e, result = error_result e)) as Herr.
  { intros e c ->. eexists _, _. split; [reflexivity|].
    right; right; right. by exists e. }
  destruct (tool_confirmation ctx) as [tc|] eqn:Hc.
  - pose proof (tool_reply_cases unicode_upper str_of _ _ Hc) as H.
    destruct (user_response_of (payload tc)) as [v|].
    + destruct v; try (destruct H as (e & _ & H); exact (Herr _ _ H)).
      destruct H as [Hb ->]. rewrite Hb.
      destruct (decide _); eexists _, _; (split; [reflexivity|]).
      * by right; left.
      * right; right; left. by eexists.
    + destruct H as (e & _ & H). exact (Herr _ _ H).
  - rewrite (tool_first_call _ _ _ Hc). eexists _, _.
    split; [reflexivity|]. by left.
Qed.

(** *** What decides the status *)

(** X1.  On a call that carries a reply the status tells what the payload
    was: skipped exactly when the user_response is a text whose upper case
    is SKIP, info_collected exactly when it is a text whose upper case is
    not SKIP, error exactly when the payload is malformed; the status is
    never awaiting_user_input. *)
Theorem reply_status_characterised ctx tc result ctx' :
  tool_confirmation ctx = Some tc →
  tool ctx = (Return result, ctx') →
  (result !! py "status" = Some (VStr (py "skipped"))
     ↔ ∃ s, user_response_of (payload tc) = Some (VStr s) ∧ upper s = py "SKIP")
  ∧ (result !! py "status" = Some (VStr (py "info_collected"))
     ↔ ∃ s, user_response_of (payload tc) = Some (VStr s) ∧ upper s ≠ py "SKIP")
  ∧ (result !! py "status" = Some (VStr (py "error"))
     ↔ malformed (payload tc) = true)
  ∧ result !! py "status" ≠ Some (VStr (py "awaiting_user_input")).
Proof.
  intros Hc Ht. pose proof (tool_reply_cases unicode_upper str_of _ _ Hc) as H.
  unfold malformed.
  destruct (user_response_of (payload tc)) as [v|].
  - destruct (is_str v) eqn:Hv.
    + destruct v; try discriminate. destruct H as [Hb H]. rewrite H, Hb in Ht.
      destruct (decide (upper s = py "SKIP")) as [Hs|Hs];
        injection Ht as <- <-.
      * rewrite skipped_status. simpl.
        split; [split; [by eauto|done]|].
        split; [split; [discriminate|by intros (s' & [= <-] & ?)]|].
        split; [split; discriminate|discriminate].
      * rewrite collected_status. simpl.
        split; [split; [discriminate|by intros (s' & [= <-] & ?)]|].
        split; [split; [by eauto|done]|].
        split; [split; discriminate|discriminate].
    + assert (∃ e, result = error_result e) as [e ->].
      { destruct v; try discriminate; destruct H as (e & _ & H);
          rewrite H in Ht; injection Ht as <- <-; by eauto. }
      rewrite error_status. simpl.
      split; [split; [discriminate|by intros (s' & [= ->] & ?)]|].
      split; [split; [discriminate|by intros (s' & [= ->] & ?)]|].
      split; [done|discriminate].
  - destruct H as (e & _ & H). rewrite H in Ht. injection Ht as <- <-.
    rewrite error_status.
    split; [split; [discriminate|by intros (s' & [=] & ?)]|].
    split; [split; [discriminate|by intros (s' & [=] & ?)]|].
    split; [done|discriminate].
Qed.

(** X2.  For a reply within ASCII the test for SKIP is exact: the spellings
    of SKIP in any letter case are skipped, and every other text, SKIP with
    a space before it or words after it included, is collected as given. *)
Theorem ascii_skip_exact ctx tc (R : pystr) :
  tool_confirmation ctx = Some tc →
  user_response_of (payload tc) = Some (VStr R) →
  is_ascii R →
  (caseless_eq R (py "SKIP") → (tool ctx).1 = Return skipped_result)
  ∧ (¬ caseless_eq R (py "SKIP") →
     (tool ctx).1 = Return (collected_result (VStr R))).
Proof.
  intros Hc Hp Ha.
  pose proof (tool_reply_cases unicode_upper str_of _ _ Hc) as H.
  rewrite Hp in H. destruct H as [Hb ->]. rewrite Hb. simpl. split.
  - intros Hr. by rewrite decide_True by by apply caseless_skip_upper.
  - intros Hr. rewrite decide_False; [done|].
    intros Hu. apply Hr. by apply ascii_upper_skip.
Qed.

(** *** What a reply call does to the context *)

(** The context after a reply call. *)
Lemma reply_context_after ctx tc :
  tool_confirmation ctx = Some tc →
  (tool ctx).2 =
    match user_response_of (payload tc) with
    | Some v => with_user_input v ctx
    | None => ctx
    end.
Proof.
  intros Hc. pose proof (tool_reply_cases unicode_upper str_of _ _ Hc) as H.
  destruct (user_response_of (payload tc)) as [v|].
  - destruct v; try (destruct H as (e & _ & ->); reflexivity).
    destruct H as [Hb ->]. by rewrite Hb.
  - by destruct H as (e & _ & ->).
Qed.

(** The result of the try body is a function of the payload. *)
Lemma body_result_of_payload tc1 tc2 ctx1 ctx2 :
  payload tc1 = payload tc2 →
  (reply_body unicode_upper tc1 ctx1).1 = (reply_body unicode_upper tc2 ctx2).1.
Proof.
  intros Hp. run. rewrite Hp.
  destruct (payload tc2) as [| | | | | |d]; try reflexivity.
  destruct (d !! py "user_response") as [v|]; [|reflexivity].
  cbv beta iota. destruct v; try reflexivity.
  cbv beta iota. by destruct (decide _).
Qed.

(** What the tool returns on a reply call, from what the try body returns. *)
Lemma tool_reply_result ctx tc :
  tool_confirmation ctx = Some tc →
  (tool ctx).1 =
    match (reply_body unicode_upper tc ctx).1 with
    | Return d => Return d
    | Raise e =>
        if isinstance e Exception then Return (error_result e) else Raise e
    end.
Proof.
  intros Hc. rewrite (tool_reply unicode_upper str_of _ _ Hc).
  destruct (reply_body unicode_upper tc ctx) as [[d|e] c]; [reflexivity|].
  cbv beta iota. unfold fst at 2. destruct (isinstance e Exception); reflexivity.
Qed.

Lemma reply_result_same ctx1 ctx2 tc1 tc2 :
  tool_confirmation ctx1 = Some tc1 →
  tool_confirmation ctx2 = Some tc2 →
  payload tc1 = payload tc2 →
  (tool ctx1).1 = (tool ctx2).1.
Proof.
  intros H1 H2 Hp.
  rewrite (tool_reply_result _ _ H1), (tool_reply_result _ _ H2).
  by rewrite (body_result_of_payload tc1 tc2 ctx1 ctx2 Hp).
Qed.

(** X3.  Whenever the payload has a user_response field, the call leaves
    exactly that value under user_input, whatever its type and whatever the
    status returned, replacing what was there, and changes nothing else in
    the context. *)
Theorem reply_always_stored ctx tc v :
  tool_confirmation ctx = Some tc →
  user_response_of (payload tc) = Some v →
  (tool ctx).2 = with_user_input v ctx
  ∧ state (tool ctx).2 !! py "user_input" = Some v.
Proof.
  intros Hc Hp. rewrite (reply_context_after _ _ Hc), Hp.
  split; [done|]. apply lookup_insert_eq.
Qed.

(** X4.  The outcome of a reply call depends on the payload and the session
    state alone.  Two calls whose confirmations carry the same payload return
    the same result, whatever the session states, the registered requests,
    the hints and the confirmed flags are; from equal session states they
    also leave equal session states.  In particular a confirmation that is
    not confirmed is processed like a confirmed one. *)
Theorem reply_outcome_depends_on_payload ctx1 ctx2 tc1 tc2 :
  tool_confirmation ctx1 = Some tc1 →
  tool_confirmation ctx2 = Some tc2 →
  payload tc1 = payload tc2 →
  (resume_gap_asker_tool unicode_upper str_of ctx1).1
  = (resume_gap_asker_tool unicode_upper str_of ctx2).1
  ∧ (state ctx1 = state ctx2 →
     state (resume_gap_asker_tool unicode_upper str_of ctx1).2
     = state (resume_gap_asker_tool unicode_upper str_of ctx2).2).
Proof.
  intros H1 H2 Hp. split; [by apply reply_result_same with tc1 tc2|].
  intros Hs. rewrite (reply_context_after _ _ H1), (reply_context_after _ _ H2).
  rewrite Hp. destruct (user_response_of (payload tc2)); [|done].
  unfold with_user_input. cbv beta iota delta [state]. fold (state ctx1).
  fold (state ctx2). by rewrite Hs.
Qed.

(** X5.  A reply call can be repeated: made again on the context it left, it
    returns the same result and leaves the context as it is. *)
Theorem reply_idempotent ctx tc :
  tool_confirmation ctx = Some tc →
  resume_gap_asker_tool unicode_upper str_of
    (resume_gap_asker_tool unicode_upper str_of ctx).2
  = resume_gap_asker_tool unicode_upper str_of ctx.
Proof.
  intros Hc. pose proof (reply_context_after _ _ Hc) as Hsnd.
  destruct (user_response_of (payload tc)) as [v|] eqn:Hp;
    [|by rewrite Hsnd].
  rewrite Hsnd.
  assert (tool_confirmation (with_user_input v ctx) = Some tc) as Hc' by done.
  assert ((tool (with_user_input v ctx)).1 = (tool ctx).1) as E1
    by by apply reply_result_same with tc tc.
  assert ((tool (with_user_input v ctx)).2 = (tool ctx).2) as E2.
  { rewrite (reply_context_after _ _ Hc'), Hp, Hsnd.
    unfold with_user_input.
    cbv beta iota delta [state tool_confirmation requested_tool_confirmations].
    by rewrite insert_insert_eq. }
  destruct (tool (with_user_input v ctx)), (tool ctx).
  cbv beta iota delta [fst snd] in E1, E2. congruence.
Qed.

(** *** The two calls in a row *)

(** X6.  The protocol end to end.  A first call waits and registers one
    request; when the framework then calls again with a confirmation whose
    user_response is a text R, that call classifies R, registers nothing
    further, and the session state is the state before the first call with R
    under user_input. *)
Theorem two_call_protocol ctx tc (R : pystr) :
  tool_confirmation ctx = None →
  user_response_of (payload tc) = Some (VStr R) →
  let first := tool ctx in
  let second := tool (with_confirmation tc first.2) in
  first.1 = Return awaiting_result
  ∧ second.1
    = Return (if decide (upper R = py "SKIP")
              then skipped_result else collected_result (VStr R))
  ∧ state second.2 = <[py "user_input" := VStr R]> (state ctx)
  ∧ (∃ request,
       requested_tool_confirmations first.2
       = requested_tool_confirmations ctx ++ [request])
  ∧ requested_tool_confirmations second.2
    = requested_tool_confirmations first.2.
Proof.
  intros Hc Hp first second. subst first second.
  rewrite (tool_first_call _ _ _ Hc).
  cbv beta iota delta [fst snd].
  set (ctx1 := with_confirmation tc _).
  assert (tool_confirmation ctx1 = Some tc) as Hc1 by done.
  pose proof (tool_reply_cases unicode_upper str_of _ _ Hc1) as H.
  rewrite Hp in H. destruct H as [Hb ->]. rewrite Hb.
  split; [done|]. split; [done|]. split; [done|]. split; [by eexists|done].
Qed.

(** *** The keys of a result *)

(** X7.  Which keys a result has follows from its status: user_input is
    there exactly for skipped and info_collected, message is there for every
    status but info_collected, and there is no key besides status,
    user_input and message. *)
Theorem result_shape ctx result ctx' :
  tool ctx = (Return result, ctx') →
  (is_Some (result !! py "user_input")
     ↔ result !! py "status" = Some (VStr (py "skipped"))
       ∨ result !! py "status" = Some (VStr (py "info_collected")))
  ∧ (is_Some (result !! py "message")
     ↔ result !! py "status" ≠ Some (VStr (py "info_collected")))
  ∧ dom result ⊆ {[ py "status"; py "user_input"; py "message" ]}.
Proof.
  intros Ht. destruct (tool_result_forms ctx) as (r & c & Hr & Hform).
  rewrite Hr in Ht. injection Ht as <- <-.
  destruct Hform as [-> | [-> | [[s ->] | [e ->]]]].
  - rewrite awaiting_status.
    split; [split; [intros [x Hx]; discriminate Hx|intros [H|H]; discriminate H]|].
    split; [split; [discriminate|by eexists]|].
    unfold awaiting_result. rewrite dom_insert_L, dom_singleton_L. apply elem_of_subseteq; intros k;
      rewrite !elem_of_union, !elem_of_singleton; tauto.
  - rewrite skipped_status.
    split; [split; [by left|by eexists]|].
    split; [split; [discriminate|by eexists]|].
    unfold skipped_result. rewrite !dom_insert_L, dom_singleton_L. apply elem_of_subseteq; intros k;
      rewrite !elem_of_union, !elem_of_singleton; tauto.
  - rewrite collected_status.
    split; [split; [by right|by eexists]|].
    split; [split; [intros [x Hx]; discriminate Hx|done]|].
    unfold collected_result. rewrite dom_insert_L, dom_singleton_L. apply elem_of_subseteq; intros k;
      rewrite !elem_of_union, !elem_of_singleton; tauto.
  - rewrite error_status.
    split; [split; [intros [x Hx]; discriminate Hx|intros [H|H]; discriminate H]|].
    split; [split; [discriminate|by eexists]|].
    unfold error_result. rewrite dom_insert_L, dom_singleton_L. apply elem_of_subseteq; intros k;
      rewrite !elem_of_union, !elem_of_singleton; tauto.
Qed.

(** *** The message for a missing field *)

(** X8.  When the payload is a mapping without the key user_response, the
    lookup fails with a KeyError whose text is the quoted key, so the
    result is status error with the message that names user_response, and
    the context is left as it was. *)
Theorem missing_field_message ctx tc d :
  tool_confirmation ctx = Some tc →
  payload tc = VDict d →
  d !! py "user_response" = None →
  tool ctx
  = (Return {[ py "status" := VStr (py "error");
               py "message" := VStr (py "An error occurred: 'user_response'") ]},
     ctx).
Proof.
  intros Hc Hp Hd. rewrite (tool_reply unicode_upper str_of _ _ Hc).
  run. rewrite Hp, Hd. reflexivity.
Qed.

End Facts.

(** *** The theorems on sample calls *)

Local Abbreviation sample_tool :=
  (resume_gap_asker_tool no_case_pairs ellipsis_repr).

(** The replies skip and hello. *)
Lemma reply_status_characterised_witness :
  (∃ s, user_response_of (reply (VStr (py "skip"))) = Some (VStr s)
        ∧ str_upper no_case_pairs s = py "SKIP")
  ∧ (sample_tool (reply_context (reply (VStr (py "hello"))))).1
    = Return (collected_result (VStr (py "hello")))
  ∧ ∃ s, user_response_of (reply (VStr (py "hello"))) = Some (VStr s)
         ∧ str_upper no_case_pairs s ≠ py "SKIP".
Proof.
  split; [exists (py "skip"); split; reflexivity|].
  split; [reflexivity|].
  destruct (reply_status_characterised no_case_pairs ellipsis_repr
              (reply_context (reply (VStr (py "hello"))))
              (confirmation_with (reply (VStr (py "hello"))))
              (collected_result (VStr (py "hello")))
              (with_user_input (VStr (py "hello"))
                 (reply_context (reply (VStr (py "hello")))))
              eq_refl eq_refl) as (_ & [Hcollected _] & _).
  apply Hcollected. reflexivity.
Defined.

(** SKIP with a space before it is not a skip. *)
Lemma ascii_skip_exact_witness :
  is_ascii (py " SKIP")
  ∧ ¬ caseless_eq (py " SKIP") (py "SKIP")
  ∧ (sample_tool (reply_context (reply (VStr (py " SKIP"))))).1
    = Return (collected_result (VStr (py " SKIP"))).
Proof.
  assert (is_ascii (py " SKIP")) as Ha
    by (unfold is_ascii; vm_compute; repeat constructor).
  assert (¬ caseless_eq (py " SKIP") (py "SKIP")) as Hn
    by (unfold caseless_eq; vm_compute; discriminate).
  split; [exact Ha|]. split; [exact Hn|].
  destruct (ascii_skip_exact no_case_pairs ellipsis_repr
              (reply_context (reply (VStr (py " SKIP"))))
              (confirmation_with (reply (VStr (py " SKIP"))))
              (py " SKIP") eq_refl eq_refl Ha) as [_ Hcollected].
  exact (Hcollected Hn).
Defined.

(** The reply skip over an earlier answer. *)
Lemma reply_always_stored_witness :
  let ctx := with_user_input (VStr (py "an earlier answer"))
               (reply_context (reply (VStr (py "skip")))) in
  state ctx !! py "user_input" = Some (VStr (py "an earlier answer"))
  ∧ state (sample_tool ctx).2 !! py "user_input" = Some (VStr (py "skip")).
Proof.
  intros ctx. split; [reflexivity|].
  destruct (reply_always_stored no_case_pairs ellipsis_repr ctx
              (confirmation_with (reply (VStr (py "skip"))))
              (VStr (py "skip")) eq_refl eq_refl) as [_ Hstored].
  exact Hstored.
Defined.

(** The same payload, confirmed in one call and not in the other. *)
Lemma reply_outcome_depends_on_payload_witness :
  let declined :=
    with_confirmation
      {| hint := py "?"; confirmed := false; payload := reply (VStr (py "hello")) |}
      first_call_context in
  (sample_tool declined).1
  = (sample_tool (reply_context (reply (VStr (py "hello"))))).1
  ∧ state (sample_tool declined).2
    = state (sample_tool (reply_context (reply (VStr (py "hello"))))).2.
Proof.
  intros declined.
  destruct (reply_outcome_depends_on_payload no_case_pairs ellipsis_repr
              declined (reply_context (reply (VStr (py "hello"))))
              {| hint := py "?"; confirmed := false;
                 payload := reply (VStr (py "hello")) |}
              (confirmation_with (reply (VStr (py "hello"))))
              eq_refl eq_refl eq_refl) as [H1 H2].
  split; [exact H1|]. apply H2. reflexivity.
Defined.

(** The reply hello, twice. *)
Lemma reply_idempotent_witness :
  let ctx := reply_context (reply (VStr (py "hello"))) in
  sample_tool (sample_tool ctx).2 = sample_tool ctx.
Proof.
  intros ctx.
  exact (reply_idempotent no_case_pairs ellipsis_repr ctx
           (confirmation_with (reply (VStr (py "hello")))) eq_refl).
Defined.

(** The first end-to-end scenario: ask, then the reply SKIP. *)
Lemma two_call_protocol_witness :
  let tc := {| hint := py ""; confirmed := true;
               payload := reply (VStr (py "SKIP")) |} in
  let first := sample_tool first_call_context in
  let second := sample_tool (with_confirmation tc first.2) in
  first.1 = Return awaiting_result
  ∧ second.1 = Return skipped_result
  ∧ state second.2 !! py "user_input" = Some (VStr (py "SKIP"))
  ∧ length (requested_tool_confirmations second.2) = 1.
Proof.
  intros tc first second.
  destruct (two_call_protocol no_case_pairs ellipsis_repr first_call_context tc
              (py "SKIP") eq_refl eq_refl)
    as (H1 & H2 & H3 & [request H4] & H5).
  split; [exact H1|]. split; [exact H2|].
  split; [unfold second, first; rewrite H3; apply lookup_insert_eq|].
  unfold second, first. rewrite H5, H4. reflexivity.
Defined.

(** The result of the reply hello has a user_input and no message. *)
Lemma result_shape_witness :
  let result := collected_result (VStr (py "hello")) in
  is_Some (result !! py "user_input") ∧ ¬ is_Some (result !! py "message").
Proof.
  intros result.
  destruct (result_shape no_case_pairs ellipsis_repr
              (reply_context (reply (VStr (py "hello")))) result
              (with_user_input (VStr (py "hello"))
                 (reply_context (reply (VStr (py "hello"))))))
    as (Hu & Hm & _); [reflexivity|].
  split.
  - apply Hu. right. reflexivity.
  - intros H. apply Hm in H. apply H. reflexivity.
Defined.

(** An empty payload. *)
Lemma missing_field_message_witness :
  ∃ result,
    sample_tool (reply_context (VDict ∅))
    = (Return result, reply_context (VDict ∅))
    ∧ result !! py "message"
      = Some (VStr (py "An error occurred: 'user_response'")).
Proof.
  eexists. split.
  - apply (missing_field_message no_case_pairs ellipsis_repr
             (reply_context (VDict ∅)) (confirmation_with (VDict ∅)) ∅);
      reflexivity.
  - reflexivity.
Defined.

End CollectorProtocol.

(** ** The template loader: what it returns and what it raises *)

Module TemplateMore.
Import Py Template.

Section Facts.

Variable template_path : pystr.

Local Abbreviation tool := (get_latex_template_tool template_path).

Ltac run :=
  cbv beta iota zeta delta
    [get_latex_template_tool open_read try_except find_clause
     bind ret raise gets].

(** The loader on each kind of path. *)
Lemma tool_cases (disk : storage) :
  tool disk =
    match disk !! template_path with
    | Some (RegularFile text) => (Return text, disk)
    | Some (Unreadable e) =>
        if isinstance e FileNotFoundError then
          (Raise (Exn FileNotFoundError
                    (py "LaTeX template not found at: " ++ template_path)), disk)
        else if isinstance e Exception then
          (Raise (Exn Exception
                    (py "Error reading LaTeX template: " ++ exn_str e)), disk)
        else (Raise e, disk)
    | None =>
        (Raise (Exn FileNotFoundError
                  (py "LaTeX template not found at: " ++ template_path)), disk)
    end.
Proof.
  run. destruct (disk !! template_path) as [[text|e]|]; cbv beta iota.
  - reflexivity.
  - destruct (isinstance e FileNotFoundError); [reflexivity|].
    destruct (isinstance e Exception); reflexivity.
  - reflexivity.
Qed.

(** X9.  The loader returns a text only when the path holds a readable file,
    and the text is then the whole text of that file; storage is left as it
    was. *)
Theorem loader_returns_only_file_text (disk disk' : storage) text :
  get_latex_template_tool template_path disk = (Return text, disk') →
  disk !! template_path = Some (RegularFile text) ∧ disk' = disk.
Proof.
  rewrite tool_cases.
  destruct (disk !! template_path) as [[t|e]|].
  - by intros [= -> ->].
  - destruct (isinstance e FileNotFoundError); [discriminate|].
    destruct (isinstance e Exception); discriminate.
  - discriminate.
Qed.

(** X10.  Whatever the loader raises is one of three things, and storage is
    left as it was:
    - a FileNotFoundError with the loader's own text, when the path is absent
      or the read itself raised a FileNotFoundError;
    - an exception of the class Exception itself, whose text quotes the
      failure, when the read raised any other Exception; the class of that
      failure (PermissionError, UnicodeDecodeError, ...) is not kept;
    - the exception of the read, unchanged, when it is not an Exception
      (an interrupt). *)
Theorem loader_raises_only (disk disk' : storage) e :
  tool disk = (Raise e, disk') →
  disk' = disk
  ∧ ((e = Exn FileNotFoundError
            (py "LaTeX template not found at: " ++ template_path)
      ∧ (disk !! template_path = None
         ∨ ∃ e0, disk !! template_path = Some (Unreadable e0)
                 ∧ isinstance e0 FileNotFoundError = true))
     ∨ (∃ e0, disk !! template_path = Some (Unreadable e0)
              ∧ isinstance e0 FileNotFoundError = false
              ∧ isinstance e0 Exception = true
              ∧ e = Exn Exception
                      (py "Error reading LaTeX template: " ++ exn_str e0))
     ∨ (disk !! template_path = Some (Unreadable e)
        ∧ isinstance e Exception = false)).
Proof.
  rewrite tool_cases.
  destruct (disk !! template_path) as [[t|e0]|].
  - discriminate.
  - destruct (isinstance e0 FileNotFoundError) eqn:Hf.
    + intros [= <- <-]. split; [done|]. left. split; [done|]. right. by eauto.
    + destruct (isinstance e0 Exception) eqn:He.
      * intros [= <- <-]. split; [done|]. right; left. by eauto.
      * intros [= <- <-]. split; [done|]. right; right. done.
  - intros [= <- <-]. split; [done|]. left. split; [done|]. by left.
Qed.

End Facts.

(** A disk where the template cannot be read for lack of permission: what is
    raised is a plain Exception, not an OSError. *)
Lemma loader_raises_only_witness :
  let disk : storage := {[ sample_path := Unreadable permission_denied ]} in
  ∃ e, get_latex_template_tool sample_path disk = (Raise e, disk)
       ∧ exn_class e = Exception
       ∧ isinstance e OSError = false
       ∧ isinstance permission_denied OSError = true.
Proof.
  intros disk.
  exists (Exn Exception
            (py "Error reading LaTeX template: " ++ exn_str permission_denied)).
  assert (get_latex_template_tool sample_path disk
          = (Raise (Exn Exception
                      (py "Error reading LaTeX template: "
                         ++ exn_str permission_denied)), disk)) as Ht
    by (vm_compute; reflexivity).
  destruct (loader_raises_only sample_path disk disk _ Ht) as [_ H].
  split; [exact Ht|]. split; [reflexivity|]. split; reflexivity.
Defined.

(** A disk with the template. *)
Lemma loader_returns_only_file_text_witness :
  let disk : storage := {[ sample_path := RegularFile sample_template ]} in
  get_latex_template_tool sample_path disk = (Return sample_template, disk)
  ∧ disk !! sample_path = Some (RegularFile sample_template).
Proof.
  intros disk.
  assert (get_latex_template_tool sample_path disk
          = (Return sample_template, disk)) as Ht by (vm_compute; reflexivity).
  split; [exact Ht|].
  exact (proj1 (loader_returns_only_file_text sample_path disk disk _ Ht)).
Defined.

End TemplateMore.

(** ** The artifact writer: versions, diagnostics and what reaches the caller *)

Module ArtifactMore.
Import Py Artifact.

Ltac run :=
  cbv beta iota zeta delta
    [save_generated_resume_latex save_artifact encode_utf8 print
     try_except find_clause bind ret raise gets modify
     artifact_service stdout].

(** The writer on each kind of world, for a text that can be encoded. *)
Lemma save_cases latex_content bytes service out :
  utf8 latex_content = Some bytes →
  save_generated_resume_latex latex_content
    {| artifact_service := service; stdout := out |} =
    match service with
    | Some (InMemory artifacts) =>
        (Return (success_result
                   (Z.of_nat (length (versions_of artifacts filename)))),
         {| artifact_service :=
              Some (InMemory
                      (<[filename := versions_of artifacts filename
                                       ++ [text_part bytes]]> artifacts));
            stdout := out |})
    | Some (Failing e) =>
        if isinstance e ValueError then
          (Return VNone,
           {| artifact_service := service;
              stdout := out ++ [not_configured_line e] |})
        else if isinstance e Exception then
          (Return VNone,
           {| artifact_service := service;
              stdout := out ++ [unexpected_line e] |})
        else (Raise e, {| artifact_service := service; stdout := out |})
    | None =>
        (Return VNone,
         {| artifact_service := None;
            stdout :=
              out ++ [not_configured_line
                        (Exn ValueError
                           (py "Artifact service is not initialized."))] |})
    end.
Proof.
  intros Hu. run. rewrite Hu. cbv beta iota.
  destruct service as [[artifacts|e]|]; cbv beta iota.
  - reflexivity.
  - destruct (isinstance e ValueError); [reflexivity|].
    destruct (isinstance e Exception); reflexivity.
  - reflexivity.
Qed.

(** The writer on a text that cannot be encoded. *)
Lemma save_unencodable_case latex_content w :
  utf8 latex_content = None →
  save_generated_resume_latex latex_content w
  = (Raise (Exn UnicodeEncodeError
              (py "'utf-8' codec can't encode character: surrogates not allowed")),
     w).
Proof. intros Hu. run. by rewrite Hu. Qed.

(** A text has no UTF-8 encoding exactly when it holds a surrogate. *)
Lemma utf8_of_codepoint_None (c : N) :
  utf8_of_codepoint c = None ↔ is_surrogate c.
Proof.
  unfold utf8_of_codepoint, is_surrogate.
  repeat (match goal with
          | |- context [N.ltb ?a ?b] => destruct (N.ltb_spec a b)
          | |- context [N.leb ?a ?b] => destruct (N.leb_spec a b)
          end; cbn [andb]);
    split; intros; (discriminate || lia || done).
Qed.

Lemma utf8_None (s : pystr) : utf8 s = None ↔ Exists is_surrogate s.
Proof.
  induction s as [|c s IH]; simpl.
  - split; [discriminate|by intros ?%Exists_nil].
  - rewrite Exists_cons, <- IH, <- utf8_of_codepoint_None.
    destruct (utf8_of_codepoint c), (utf8 s); split;
      (discriminate || tauto || (intros [|]; discriminate) || eauto).
Qed.

(** The bytes of a text within ASCII are its code points. *)
Lemma utf8_ascii (s : pystr) : is_ascii s → utf8 s = Some s.
Proof.
  unfold is_ascii. induction 1 as [|c s Hc Hs IH]; [done|].
  simpl. rewrite IH. unfold utf8_of_codepoint.
  by destruct (N.ltb_spec c 0x80); [|lia].
Qed.

Lemma versions_of_insert artifacts name vs :
  versions_of (<[name := vs]> artifacts) name = vs.
Proof. unfold versions_of. by rewrite lookup_insert_eq. Qed.

(** X11.  Two saves in a row.  With the in-memory service and texts that can
    be encoded, the second save gets the version after the first one's, both
    parts are kept under the filename in the order saved, and nothing is
    printed. *)
Theorem consecutive_saves first second bytes1 bytes2 w artifacts :
  utf8 first = Some bytes1 →
  utf8 second = Some bytes2 →
  artifact_service w = Some (InMemory artifacts) →
  let stored := versions_of artifacts filename in
  let version := Z.of_nat (length stored) in
  let r1 := save_generated_resume_latex first w in
  let r2 := save_generated_resume_latex second r1.2 in
  r1.1 = Return (success_result version)
  ∧ r2.1 = Return (success_result (version + 1))
  ∧ (∃ artifacts',
       artifact_service r2.2 = Some (InMemory artifacts')
       ∧ versions_of artifacts' filename
         = stored ++ [text_part bytes1; text_part bytes2])
  ∧ stdout r2.2 = stdout w.
Proof.
  intros H1 H2 Hs. destruct w as [service out]. simpl in Hs. subst service.
  cbv zeta. rewrite (save_cases _ _ _ _ H1).
  cbv beta iota delta [fst snd]. rewrite (save_cases _ _ _ _ H2).
  cbv beta iota delta [fst snd]. rewrite !versions_of_insert.
  split; [done|]. split.
  - rewrite length_app, Nat2Z.inj_add. reflexivity.
  - split; [|done]. eexists. split; [reflexivity|].
    rewrite versions_of_insert, <- app_assoc. reflexivity.
Qed.

(** X12.  The except clause for ValueError comes first, so a save that fails
    with any ValueError, one of its subclasses included, is reported with the
    line that asks whether the service is configured, though a service is
    there; the writer returns None and the service is left as it was. *)
Theorem value_error_reported_as_unconfigured latex_content bytes w e :
  utf8 latex_content = Some bytes →
  artifact_service w = Some (Failing e) →
  isinstance e ValueError = true →
  save_generated_resume_latex latex_content w
  = (Return VNone,
     {| artifact_service := Some (Failing e);
        stdout := stdout w ++ [not_configured_line e] |}).
Proof.
  intros Hu Hs He. destruct w as [service out]. simpl in Hs. subst service.
  rewrite (save_cases _ _ _ _ Hu). by rewrite He.
Qed.

(** X13.  The writer raises to its caller in two cases only, and then leaves
    the world as it was (nothing saved, nothing printed): the text cannot be
    encoded, and the exception is a UnicodeEncodeError; or the service failed
    with an exception that is not an Exception (an interrupt), which passes
    through unchanged. *)
Theorem save_raises_only latex_content w w' e :
  save_generated_resume_latex latex_content w = (Raise e, w') →
  w' = w
  ∧ ((utf8 latex_content = None ∧ exn_class e = UnicodeEncodeError)
     ∨ (utf8 latex_content ≠ None
        ∧ artifact_service w = Some (Failing e)
        ∧ isinstance e Exception = false)).
Proof.
  destruct (utf8 latex_content) as [bytes|] eqn:Hu.
  - destruct w as [service out]. rewrite (save_cases _ _ _ _ Hu).
    destruct service as [[artifacts|e0]|]; try discriminate.
    destruct (isinstance e0 ValueError); [discriminate|].
    destruct (isinstance e0 Exception) eqn:He; [discriminate|].
    intros [= <- <-]. split; [done|]. right. done.
  - rewrite (save_unencodable_case _ _ Hu). intros [= <- <-].
    split; [done|]. by left.
Qed.

(** X14.  The writer raises a UnicodeEncodeError exactly for the texts that
    hold a surrogate code point, whatever the service is. *)
Theorem encode_error_iff_surrogate latex_content w :
  (∃ e, save_generated_resume_latex latex_content w = (Raise e, w)
        ∧ exn_class e = UnicodeEncodeError)
  ↔ Exists is_surrogate latex_content.
Proof.
  rewrite <- utf8_None. split.
  - intros (e & Ht & He).
    destruct (utf8 latex_content) as [bytes|] eqn:Hu; [|done].
    destruct w as [service out]. rewrite (save_cases _ _ _ _ Hu) in Ht.
    destruct service as [[artifacts|e0]|]; try discriminate.
    destruct (isinstance e0 ValueError) eqn:Hv; [discriminate|].
    destruct (isinstance e0 Exception) eqn:Hx; [discriminate|].
    injection Ht as <-. destruct e0 as [c m]. simpl in He. subst c.
    discriminate Hx.
  - intros Hu. rewrite (save_unencodable_case _ _ Hu). by eexists.
Qed.

(** X15.  A text within ASCII is stored byte for byte: with the in-memory
    service the newest version under the filename is a text/plain part whose
    data are the code points of the text. *)
Theorem ascii_saved_verbatim latex_content w artifacts :
  is_ascii latex_content →
  artifact_service w = Some (InMemory artifacts) →
  ∃ d artifacts' w',
    save_generated_resume_latex latex_content w = (Return (VDict d), w')
    ∧ artifact_service w' = Some (InMemory artifacts')
    ∧ last (versions_of artifacts' filename)
      = Some {| inline_data :=
                  {| mime_type := py "text/plain"; data := latex_content |} |}.
Proof.
  intros Ha Hs. destruct w as [service out]. simpl in Hs. subst service.
  rewrite (save_cases _ _ _ _ (utf8_ascii _ Ha)).
  eexists _, _, _. split; [reflexivity|]. split; [reflexivity|].
  rewrite versions_of_insert. apply last_snoc.
Qed.

(** *** The theorems on sample runs *)

(** The first two saves of a run get the versions 0 and 1. *)
Lemma consecutive_saves_witness :
  let r1 := save_generated_resume_latex sample_latex fresh_world in
  let r2 := save_generated_resume_latex (py "\end{document}") r1.2 in
  r1.1 = Return (success_result 0) ∧ r2.1 = Return (success_result 1).
Proof.
  intros r1 r2.
  destruct (utf8 sample_latex) as [b1|] eqn:H1;
    [|vm_compute in H1; discriminate H1].
  destruct (utf8 (py "\end{document}")) as [b2|] eqn:H2;
    [|vm_compute in H2; discriminate H2].
  destruct (consecutive_saves sample_latex (py "\end{document}") b1 b2
              fresh_world ∅ H1 H2 eq_refl) as (Hr1 & Hr2 & _).
  split; [exact Hr1|exact Hr2].
Defined.

(** A service that fails with a UnicodeDecodeError, a ValueError. *)
Lemma value_error_reported_as_unconfigured_witness :
  let w := {| artifact_service := Some (Failing bad_value); stdout := [] |} in
  isinstance bad_value ValueError = true
  ∧ save_generated_resume_latex sample_latex w
    = (Return VNone,
       {| artifact_service := Some (Failing bad_value);
          stdout := [not_configured_line bad_value] |}).
Proof.
  intros w. split; [reflexivity|].
  destruct (utf8 sample_latex) as [b|] eqn:Hu;
    [|vm_compute in Hu; discriminate Hu].
  exact (value_error_reported_as_unconfigured sample_latex b w bad_value
           Hu eq_refl eq_refl).
Defined.

(** A service stopped by an interrupt. *)
Lemma save_raises_only_witness :
  let w := {| artifact_service := Some (Failing interrupted); stdout := [] |} in
  save_generated_resume_latex sample_latex w = (Raise interrupted, w)
  ∧ isinstance interrupted Exception = false.
Proof.
  intros w.
  assert (save_generated_resume_latex sample_latex w = (Raise interrupted, w))
    as Ht by (vm_compute; reflexivity).
  split; [exact Ht|].
  destruct (save_raises_only sample_latex w w interrupted Ht)
    as [_ [[Hu _] | (_ & _ & He)]]; [vm_compute in Hu; discriminate Hu|exact He].
Defined.

(** A text with the lone surrogate U+D800. *)
Lemma encode_error_iff_surrogate_witness :
  Exists is_surrogate [92; 0xD800]%N
  ∧ ∃ e, save_generated_resume_latex [92; 0xD800]%N fresh_world
         = (Raise e, fresh_world)
         ∧ exn_class e = UnicodeEncodeError.
Proof.
  assert (Exists is_surrogate [92; 0xD800]%N) as Hs
    by (apply Exists_cons_tl, Exists_cons_hd; unfold is_surrogate; lia).
  split; [exact Hs|].
  exact (proj2 (encode_error_iff_surrogate [92; 0xD800]%N fresh_world) Hs).
Defined.

(** The sample LaTeX is within ASCII. *)
Lemma ascii_saved_verbatim_witness :
  is_ascii sample_latex
  ∧ ∃ d artifacts' w',
      save_generated_resume_latex sample_latex fresh_world = (Return (VDict d), w')
      ∧ artifact_service w' = Some (InMemory artifacts')
      ∧ last (versions_of artifacts' filename)
        = Some {| inline_data :=
                    {| mime_type := py "text/plain"; data := sample_latex |} |}.
Proof.
  assert (is_ascii sample_latex) as Ha
    by (unfold is_ascii; vm_compute; repeat constructor).
  split; [exact Ha|].
  exact (ascii_saved_verbatim sample_latex fresh_world ∅ Ha eq_refl).
Defined.

End ArtifactMore.
